(** * AI widget backend: storage, runner, generation and endpoints

    A shallow embedding of [backend/models.py], [backend/db.py],
    [backend/widget_runner.py], [backend/ai_integration.py] and the
    endpoints of [backend/main.py].

    Modelling conventions.
    - Python [int] is [Z]; [bytes] is [string]; a [str] is the [string] of
      its UTF-8 encoding.
    - A function that touches the disk or [sys.modules] is a state
      transformer on [world] returning an [outcome]: [Return v] for a
      normal return, [Raise e] for an exception.
    - The disk is a finite map from path to file content.  Only the
      existence of directories is tracked ([dirs]); a path is never a file
      and a directory at once, and permissions are not modelled.
    - [json.dump]/[json.load] are taken as a correct codec: a file written
      by [json.dump] holds [FJson doc] and [json.load] gives [doc] back;
      every other file holds [FText] with its bytes, and reading it as
      JSON fails: in the decoder when the bytes are not UTF-8, in the
      parser otherwise.
    - [time.time()] is a binary64 number, given as the rational it
      denotes; its product with 1000 is rounded to binary64 before [int]
      truncates it.
    - The file system is POSIX, without symbolic links; a file name is at
      most 255 bytes.  The bytecode cache that the import system may write
      next to a source file is not part of the state.
    - [print] output and stderr are not part of the state.
    - The meaning of a code bundle is a parameter ([py_exec]): what running
      the file under a given module name defines, or the exception it
      raises.  Bundles are taken not to touch [world] themselves.
    - The text of exceptions raised inside libraries is representative;
      messages the repository formats itself are exact. *)

From stdpp Require Import gmap strings list fin_maps pretty sorting.
From Stdlib Require Import Ascii QArith Qround Lqa.

Open Scope Z_scope.

(** ** Exceptions and outcomes *)

(** An exception carries the names of its class and of its base classes
    (most specific first) and its message.  [HTTPException] also carries
    the status code. *)
Inductive exn :=
| PyExc (mro : list string) (msg : string)
| HTTPException (status_code : Z) (detail : string).

Definition exc_mro (e : exn) : list string :=
  match e with
  | PyExc mro _ => mro
  | HTTPException _ _ => ["HTTPException"; "Exception"; "BaseException"]
  end.

Definition exc_class (e : exn) : string := default "BaseException" (head (exc_mro e)).

(** [str(e)] *)
Definition exc_str (e : exn) : string :=
  match e with
  | PyExc _ msg => msg
  | HTTPException c d => pretty c +:+ ": " +:+ d
  end.

(** [isinstance(e, cls)] *)
Definition isinstance (e : exn) (cls : string) : bool :=
  bool_decide (cls ∈ exc_mro e).

Definition Exception_ (cls : string) (msg : string) : exn :=
  PyExc [cls; "Exception"; "BaseException"] msg.

Definition TypeError := Exception_ "TypeError".
Definition AttributeError := Exception_ "AttributeError".
Definition ImportError := Exception_ "ImportError".
Definition ValueError := Exception_ "ValueError".
Definition KeyError (msg : string) : exn :=
  PyExc ["KeyError"; "LookupError"; "Exception"; "BaseException"] msg.
Definition FileNotFoundError (path : string) : exn :=
  PyExc ["FileNotFoundError"; "OSError"; "Exception"; "BaseException"]
        ("[Errno 2] No such file or directory: '" +:+ path +:+ "'").
(** [json.JSONDecodeError] and pydantic's [ValidationError] both derive
    from [ValueError]. *)
Definition JSONDecodeError (msg : string) : exn :=
  PyExc ["JSONDecodeError"; "ValueError"; "Exception"; "BaseException"] msg.
Definition ValidationError (msg : string) : exn :=
  PyExc ["ValidationError"; "ValueError"; "Exception"; "BaseException"] msg.
(** [UnicodeDecodeError] derives from [ValueError] too, through
    [UnicodeError]. *)
Definition UnicodeDecodeError (msg : string) : exn :=
  PyExc ["UnicodeDecodeError"; "UnicodeError"; "ValueError"; "Exception"; "BaseException"] msg.

Inductive outcome (A : Type) :=
| Return (a : A)
| Raise (e : exn).
Arguments Return {A} a.
Arguments Raise {A} e.

(** ** Python values seen by the runner *)

(** What an entry point may return.  [PyObject] stands for any other
    object and carries what [str()] does on it: the text, or the exception
    its [__str__] raises. *)
Inductive pyval :=
| PyNone
| PyBool (b : bool)
| PyInt (z : Z)
| PyStr (s : string)
| PyObject (repr : outcome string).

(** [str(v)] *)
Definition py_str (v : pyval) : outcome string :=
  match v with
  | PyNone => Return "None"
  | PyBool true => Return "True"
  | PyBool false => Return "False"
  | PyInt z => Return (pretty z)
  | PyStr s => Return s
  | PyObject r => r
  end.

Definition py_type (v : pyval) : string :=
  match v with
  | PyNone => "NoneType"
  | PyBool _ => "bool"
  | PyInt _ => "int"
  | PyStr _ => "str"
  | PyObject _ => "object"
  end.

(** A value of the submitted form: a text field or an uploaded file. *)
Inductive form_value :=
| Str (s : string)
| UploadFile (filename : string) (file : string).

(** An attribute of a loaded module: plain data, or something that can be
    called with the input mapping. *)
Inductive pyobj :=
| Data (v : pyval)
| Callable (f : gmap string form_value → outcome pyval).

(** ** JSON documents and file contents *)

#[local] Set Warnings "-register-all".
Inductive json :=
| JNull
| JBool (b : bool)
| JInt (z : Z)
| JStr (s : string)
| JList (l : list json)
| JObj (fields : list (string * json)).

(** Lookup in a decoded object; [json.load] keeps the last of several
    bindings of a key. *)
Fixpoint dict_get (k : string) (fields : list (string * json)) : option json :=
  match fields with
  | [] => None
  | (k', v) :: rest =>
      match dict_get k rest with
      | Some v' => Some v'
      | None => if String.eqb k k' then Some v else None
      end
  end.

Inductive file_content :=
| FText (text : string)
| FJson (doc : json).

(** [json.loads(text)] on a [str] *)
Definition json_loads (c : file_content) : outcome json :=
  match c with
  | FJson doc => Return doc
  | FText _ => Raise (JSONDecodeError "Expecting value: line 1 column 1 (char 0)")
  end.

Definition byte_in (lo hi : N) (c : Ascii.ascii) : bool :=
  ((lo <=? N_of_ascii c) && (N_of_ascii c <=? hi))%N.

(** Whether the bytes are well-formed UTF-8, as the strict decoder of
    [open(..., encoding="utf-8")] requires: no stray continuation byte, no
    overlong form, no surrogate, nothing above U+10FFFF. *)
Fixpoint utf8_valid (s : string) : bool :=
  match s with
  | EmptyString => true
  | String c0 s1 =>
      if byte_in 0 127 c0 then utf8_valid s1
      else if byte_in 194 223 c0 then
        match s1 with
        | String c1 s2 => byte_in 128 191 c1 && utf8_valid s2
        | _ => false
        end
      else if byte_in 224 239 c0 then
        match s1 with
        | String c1 (String c2 s3) =>
            (if byte_in 224 224 c0 then byte_in 160 191 c1
             else if byte_in 237 237 c0 then byte_in 128 159 c1
             else byte_in 128 191 c1)
            && byte_in 128 191 c2 && utf8_valid s3
        | _ => false
        end
      else if byte_in 240 244 c0 then
        match s1 with
        | String c1 (String c2 (String c3 s4)) =>
            (if byte_in 240 240 c0 then byte_in 144 191 c1
             else if byte_in 244 244 c0 then byte_in 128 143 c1
             else byte_in 128 191 c1)
            && byte_in 128 191 c2 && byte_in 128 191 c3 && utf8_valid s4
        | _ => false
        end
      else false
  end.

(** [json.load(f)] on a file opened as UTF-8 text: the whole file is
    decoded, then parsed. *)
Definition json_load (c : file_content) : outcome json :=
  match c with
  | FText text =>
      if utf8_valid text then json_loads c
      else Raise (UnicodeDecodeError "'utf-8' codec can't decode bytes: invalid data")
  | FJson _ => json_loads c
  end.

(** ** The process and its disk *)

Record world := World {
  fs : gmap string file_content;
  dirs : gset string;
  sys_modules : gmap string (gmap string pyobj)
}.

Definition set_fs (f : gmap string file_content → gmap string file_content) (w : world) : world :=
  World (f (fs w)) (dirs w) (sys_modules w).
Definition set_dirs (f : gset string → gset string) (w : world) : world :=
  World (fs w) (f (dirs w)) (sys_modules w).
Definition set_sys_modules
    (f : gmap string (gmap string pyobj) → gmap string (gmap string pyobj)) (w : world) : world :=
  World (fs w) (dirs w) (f (sys_modules w)).

(** State and exception monad over a state [S]: [world] for the storage
    and the runner, [world] with the local variables for the endpoint. *)
Definition M (S A : Type) : Type := S → S * outcome A.

Definition ret {S A} (a : A) : M S A := λ s, (s, Return a).
Definition raise {S A} (e : exn) : M S A := λ s, (s, Raise e).
Definition lift {S A} (r : outcome A) : M S A := λ s, (s, r).
Definition bind {S A B} (m : M S A) (k : A → M S B) : M S B :=
  λ s, match m s with
       | (s', Return a) => k a s'
       | (s', Raise e) => (s', Raise e)
       end.
Definition gets {S A} (f : S → A) : M S A := λ s, (s, Return (f s)).
Definition modify {S} (f : S → S) : M S unit := λ s, (f s, Return tt).

Declare Scope py_scope.
Delimit Scope py_scope with py.
Notation "'let*' x ':=' m 'in' k" := (bind m (λ x, k))
  (at level 10, x pattern, m at level 100, k at level 200) : py_scope.
Open Scope py_scope.

(** [for x in l: body(x)] *)
Fixpoint for_each {S A} (l : list A) (body : A → M S unit) : M S unit :=
  match l with
  | [] => ret tt
  | x :: l' => let* _ := body x in for_each l' body
  end.

(** [try: body  except (cls1, cls2, ...) as e: handler(e)] *)
Definition try_except {S A} (body : M S A) (classes : list string) (handler : exn → M S A) : M S A :=
  λ s, match body s with
       | (s', Return a) => (s', Return a)
       | (s', Raise e) =>
           if existsb (isinstance e) classes then handler e s' else (s', Raise e)
       end.

(** [try: body  finally: fin].  An exception raised by [fin] replaces the
    result of [body]. *)
Definition try_finally {S A} (body : M S A) (fin : M S unit) : M S A :=
  λ s, match body s with
       | (s', r) =>
           match fin s' with
           | (s'', Return _) => (s'', r)
           | (s'', Raise e) => (s'', Raise e)
           end
       end.

(** ** [datetime] values and their ISO 8601 text *)

Module datetime.

Record t := mk {
  year : N; month : N; day : N;
  hour : N; minute : N; second : N; microsecond : N
}.

Definition is_leap (y : N) : bool :=
  ((y mod 4 =? 0) && negb (y mod 100 =? 0) || (y mod 400 =? 0))%N.

Definition days_in_month (y m : N) : N :=
  match m with
  | 2 => if is_leap y then 29 else 28
  | 4 | 6 | 9 | 11 => 30
  | _ => 31
  end%N.

(** The range checks of the [datetime] constructor. *)
Definition valid (d : t) : bool :=
  ((1 <=? year d) && (year d <=? 9999) &&
   (1 <=? month d) && (month d <=? 12) &&
   (1 <=? day d) && (day d <=? days_in_month (year d) (month d)) &&
   (hour d <? 24) && (minute d <? 60) && (second d <? 60) &&
   (microsecond d <? 1000000))%N.

(** [k] decimal digits of [n], most significant first, followed by [rest]. *)
Fixpoint zfill (k : nat) (n : N) (rest : string) : string :=
  match k with
  | O => rest
  | S k' => String (pretty_N_char ((n / 10 ^ N.of_nat k') mod 10)) (zfill k' n rest)
  end.

(** Reads exactly [k] decimal digits. *)
Fixpoint take_digits (k : nat) (s : string) (acc : N) : option (N * string) :=
  match k with
  | O => Some (acc, s)
  | S k' =>
      match s with
      | String c s' =>
          match Ascii.is_nat c with
          | Some d => take_digits k' s' (acc * 10 + N.of_nat d)%N
          | None => None
          end
      | EmptyString => None
      end
  end.

Definition expect (c : Ascii.ascii) (s : string) : option string :=
  match s with
  | String c' s' => if Ascii.eqb c c' then Some s' else None
  | EmptyString => None
  end.

(** [d.isoformat()] of a naive datetime: [YYYY-MM-DDTHH:MM:SS], followed
    by [.ffffff] when the microsecond is not zero. *)
Definition isoformat (d : t) : string :=
  zfill 4 (year d) (String "-"%char (zfill 2 (month d) (String "-"%char (zfill 2 (day d)
    (String "T"%char (zfill 2 (hour d) (String ":"%char (zfill 2 (minute d) (String ":"%char
      (zfill 2 (second d)
         (if (microsecond d =? 0)%N then ""
          else String "."%char (zfill 6 (microsecond d) "")))))))))))).

(** Parsing of that same format; any other text is rejected. *)
Definition fromisoformat (s : string) : option t :=
  '(y, s) ← take_digits 4 s 0%N; s ← expect "-"%char s;
  '(mo, s) ← take_digits 2 s 0%N; s ← expect "-"%char s;
  '(d, s) ← take_digits 2 s 0%N; s ← expect "T"%char s;
  '(h, s) ← take_digits 2 s 0%N; s ← expect ":"%char s;
  '(mi, s) ← take_digits 2 s 0%N; s ← expect ":"%char s;
  '(se, s) ← take_digits 2 s 0%N;
  '(us, s) ← match s with
             | EmptyString => Some (0%N, s)
             | _ => s ← expect "."%char s; take_digits 6 s 0%N
             end;
  match s with
  | EmptyString => let r := mk y mo d h mi se us in if valid r then Some r else None
  | _ => None
  end.

End datetime.

(** ** [models.py] *)

Module models.

(** [class WidgetCreate(BaseModel)] *)
Record WidgetCreate := mkWidgetCreate {
  name : string;
  category : string;
  python_code : string;
  html_code : string
}.

(** [class Widget(WidgetCreate)]: the inherited fields are the embedded
    [WidgetCreate]. *)
Record Widget := mkWidget {
  base : WidgetCreate;
  id : Z;
  creation_date : datetime.t;
  usage_count : Z
}.

(** [widget.model_dump(mode='json')] *)
Definition model_dump (w : Widget) : json :=
  JObj [("name", JStr (name (base w)));
        ("category", JStr (category (base w)));
        ("python_code", JStr (python_code (base w)));
        ("html_code", JStr (html_code (base w)));
        ("id", JInt (id w));
        ("creation_date", JStr (datetime.isoformat (creation_date w)));
        ("usage_count", JInt (usage_count w))].

Definition str_field (k : string) (fields : list (string * json)) : option string :=
  match dict_get k fields with Some (JStr s) => Some s | _ => None end.
Definition int_field (k : string) (fields : list (string * json)) : option Z :=
  match dict_get k fields with Some (JInt z) => Some z | _ => None end.
Definition datetime_field (k : string) (fields : list (string * json)) : option datetime.t :=
  match dict_get k fields with Some (JStr s) => datetime.fromisoformat s | _ => None end.

(** Field validation of [Widget]: every field is required and must have
    its declared type; keys that are not fields are ignored.  The
    coercions pydantic applies on top of this (an integer written as a
    string, other datetime spellings) are left out: such a record is
    treated as invalid. *)
Definition validate (fields : list (string * json)) : option Widget :=
  n ← str_field "name" fields;
  c ← str_field "category" fields;
  p ← str_field "python_code" fields;
  h ← str_field "html_code" fields;
  i ← int_field "id" fields;
  d ← datetime_field "creation_date" fields;
  u ← int_field "usage_count" fields;
  Some (mkWidget (mkWidgetCreate n c p h) i d u).


(** [Widget] called with [data] unpacked as keyword arguments: unpacking
    anything but a mapping is a [TypeError]; a mapping that fails
    validation is a [ValidationError]. *)
Definition Widget_init (data : json) : outcome Widget :=
  match data with
  | JObj fields =>
      match validate fields with
      | Some w => Return w
      | None => Raise (ValidationError "validation errors for Widget")
      end
  | _ => Raise (TypeError "models.Widget() argument after ** must be a mapping")
  end.

(** [class PromptRequest(BaseModel)] *)
Record PromptRequest := mkPromptRequest { prompt : string }.

(** Field validation of [WidgetCreate]: four required text fields, other
    keys ignored. *)
Definition validate_create (fields : list (string * json)) : option WidgetCreate :=
  n ← str_field "name" fields;
  c ← str_field "category" fields;
  p ← str_field "python_code" fields;
  h ← str_field "html_code" fields;
  Some (mkWidgetCreate n c p h).

(** [WidgetCreate] called with [data] unpacked as keyword arguments. *)
Definition WidgetCreate_init (data : json) : outcome WidgetCreate :=
  match data with
  | JObj fields =>
      match validate_create fields with
      | Some w => Return w
      | None => Raise (ValidationError "validation errors for WidgetCreate")
      end
  | _ => Raise (TypeError "models.WidgetCreate() argument after ** must be a mapping")
  end.

End models.

(** ** Strings and paths *)

(** [s.endswith(suffix)] *)
Fixpoint endswith (s suffix : string) : bool :=
  if String.eqb s suffix then true
  else match s with
       | EmptyString => false
       | String _ s' => endswith s' suffix
       end.

(** [s] without its prefix [p], when it has it. *)
Fixpoint strip_prefix (p s : string) : option string :=
  match p, s with
  | EmptyString, _ => Some s
  | String a p', String b s' => if Ascii.eqb a b then strip_prefix p' s' else None
  | String _ _, EmptyString => None
  end.

Fixpoint contains_char (c : Ascii.ascii) (s : string) : bool :=
  match s with
  | EmptyString => false
  | String a s' => Ascii.eqb a c || contains_char c s'
  end.

(** The last character of a string. *)
Fixpoint last_char (s : string) : option Ascii.ascii :=
  match s with
  | EmptyString => None
  | String c EmptyString => Some c
  | String _ s' => last_char s'
  end.

(** [os.path.join(d, name)] for a relative [name]. *)
Definition os_path_join (d name : string) : string := d +:+ "/" +:+ name.

(** ** Operating-system calls

    [os.path.exists] has two models: [os_path_exists] where the code tests
    the path of a file, [os_path_isdir] where it tests a directory. *)

Definition os_path_exists (path : string) : M world bool :=
  gets (λ w, bool_decide (is_Some (fs w !! path))).

Definition os_path_isdir (d : string) : M world bool :=
  gets (λ w, bool_decide (d ∈ dirs w)).

(** [os.makedirs(d, exist_ok=True)] *)
Definition os_makedirs (d : string) : M world unit :=
  modify (set_dirs (λ ds, {[d]} ∪ ds)).

(** [open(path, "r").read()] *)
Definition open_read (path : string) : M world file_content :=
  λ w, match fs w !! path with
       | Some c => (w, Return c)
       | None => (w, Raise (FileNotFoundError path))
       end.

(** [open(path, "w")] followed by writing [c], for a [path] directly under
    the directory [parent]: an existing file is replaced; a new one needs
    the directory to exist. *)
Definition open_write (parent path : string) (c : file_content) : M world unit :=
  λ w, if bool_decide (is_Some (fs w !! path)) || bool_decide (parent ∈ dirs w)
       then (set_fs <[path := c]> w, Return tt)
       else (w, Raise (FileNotFoundError path)).

(** [os.remove(path)] *)
Definition os_remove (path : string) : M world unit :=
  λ w, match fs w !! path with
       | Some _ => (set_fs (delete path) w, Return tt)
       | None => (w, Raise (FileNotFoundError path))
       end.

(** The name under [d] of the file at [path], when [path] is a file
    directly in [d]. *)
Definition child_of (d path : string) : option string :=
  match strip_prefix (d +:+ "/") path with
  | Some name => if contains_char "/" name then None else Some name
  | None => None
  end.

(** [os.listdir(d)]: the files of [d], in no particular order.
    Sub-directories are not listed. *)
Definition os_listdir (d : string) : M world (list string) :=
  gets (λ w, omap (child_of d) (map_to_list (fs w)).*1).

(** [sorted(names, reverse=True)] on pairwise different names. *)
Definition sorted_reverse (names : list string) : list string :=
  merge_sort (λ a b : string, String.le b a) names.

(** [try: body] with several [except] clauses: the first clause that
    names a class of the exception handles it. *)
Fixpoint first_handler {S A} (e : exn) (clauses : list (list string * (exn → M S A)))
    : option (M S A) :=
  match clauses with
  | [] => None
  | (classes, handler) :: rest =>
      if existsb (isinstance e) classes then Some (handler e) else first_handler e rest
  end.

Definition try_excepts {S A} (body : M S A) (clauses : list (list string * (exn → M S A)))
    : M S A :=
  λ s, match body s with
       | (s', Return a) => (s', Return a)
       | (s', Raise e) =>
           match first_handler e clauses with
           | Some handler => handler s'
           | None => (s', Raise e)
           end
       end.

(** [sep.join(parts)] *)
Fixpoint str_join (sep : string) (parts : list string) : string :=
  match parts with
  | [] => ""
  | [p] => p
  | p :: rest => p +:+ sep +:+ str_join sep rest
  end.

(** [needle in s] on two strings *)
Fixpoint contains_str (needle s : string) : bool :=
  String.prefix needle s ||
  match s with
  | EmptyString => false
  | String _ s' => contains_str needle s'
  end.

(** ** Binary64 arithmetic *)

Module float64.

(** [2 ^ k] as a rational. *)
Definition pow2 (k : Z) : Q :=
  if (0 <=? k)%Z then inject_Z (2 ^ k) else (/ inject_Z (2 ^ (- k)))%Q.

(** The binary exponent of [x], for [0 < x]: the [k] with
    [2 ^ k <= x < 2 ^ (k + 1)]. *)
Definition exponent (x : Q) : Z :=
  if Qle_bool 1 x then Z.log2 (Qfloor x) else - Z.log2_up (Qceiling (/ x)).

(** The integer nearest to [x]; of two that are equally near, the even
    one. *)
Definition round_half_even (x : Q) : Z :=
  let f := Qfloor x in
  match (x - inject_Z f ?= 1 # 2)%Q with
  | Lt => f
  | Gt => f + 1
  | Eq => if Z.even f then f else f + 1
  end.

(** The number with a 53-bit significand nearest to [x], for [0 < x]. *)
Definition round_positive (x : Q) : Q :=
  let s := 52 - exponent x in
  (inject_Z (round_half_even (x * pow2 s)) * pow2 (- s))%Q.

(** The binary64 number nearest to [x], ties to even, as every
    arithmetic operation on [float] returns it; [x] is taken to be in the
    range of the normal numbers. *)
Definition round (x : Q) : Q :=
  match (x ?= 0)%Q with
  | Eq => 0%Q
  | Gt => round_positive x
  | Lt => (- round_positive (- x))%Q
  end.

End float64.

(** ** [db.py] *)

Module db.

Definition WIDGETS_DIR : string := "widgets".

(** [int(time.time() * 1000)] for the clock reading [t]: the product is a
    [float], and [int] truncates it towards zero. *)
Definition timestamp_ms (t : Q) : Z :=
  let q := float64.round (t * 1000) in Z.quot (Qnum q) (Zpos (Qden q)).

(** The path of the record with this id. *)
Definition widget_path (widget_id : Z) : string :=
  os_path_join WIDGETS_DIR (pretty widget_id +:+ ".json").

(** [setup_storage()] *)
Definition setup_storage : M world unit :=
  let* _ := os_makedirs "database" in
  os_makedirs WIDGETS_DIR.

(** [create_widget(widget_data)], with the two clock readings it takes:
    [t] from [time.time()] and [now] from [datetime.utcnow()]. *)
Definition create_widget (t : Q) (now : datetime.t) (widget_data : models.WidgetCreate)
    : M world models.Widget :=
  let widget_id := timestamp_ms t in
  let new_widget := models.mkWidget widget_data widget_id now 0 in
  let file_path := widget_path widget_id in
  let* _ := open_write WIDGETS_DIR file_path (FJson (models.model_dump new_widget)) in
  ret new_widget.

(** [get_widget_by_id(widget_id)]; [None] is Python's [None]. *)
Definition get_widget_by_id (widget_id : Z) : M world (option models.Widget) :=
  let file_path := widget_path widget_id in
  let* found := os_path_exists file_path in
  if negb found then ret None
  else
    let* f := open_read file_path in
    let* data := lift (json_load f) in
    let* widget := lift (models.Widget_init data) in
    ret (Some widget).

(** The body of the loop of [get_all_widgets]; [widgets] is the list
    built so far. *)
Definition load_listed (filename : string) (widgets : list models.Widget)
    : M world (list models.Widget) :=
  if endswith filename ".json" then
    let file_path := os_path_join WIDGETS_DIR filename in
    let* f := open_read file_path in
    try_except
      (let* data := lift (json_load f) in
       let* widget := lift (models.Widget_init data) in
       ret (widgets ++ [widget]))
      ["JSONDecodeError"; "TypeError"]
      (λ e, ret widgets)
  else ret widgets.

Fixpoint load_all (filenames : list string) (widgets : list models.Widget)
    : M world (list models.Widget) :=
  match filenames with
  | [] => ret widgets
  | filename :: rest =>
      let* widgets' := load_listed filename widgets in
      load_all rest widgets'
  end.



(** [get_all_widgets()] *)
Definition get_all_widgets : M world (list models.Widget) :=
  let* found := os_path_isdir WIDGETS_DIR in
  if negb found then ret []
  else
    let* names := os_listdir WIDGETS_DIR in
    load_all (sorted_reverse names) [].


(** [widget.usage_count += 1] *)
Definition bump (widget : models.Widget) : models.Widget :=
  models.mkWidget (models.base widget) (models.id widget) (models.creation_date widget)
                  (models.usage_count widget + 1).

(** [increment_usage_count(widget_id)] *)
Definition increment_usage_count (widget_id : Z) : M world unit :=
  let* widget := get_widget_by_id widget_id in
  match widget with
  | None => ret tt
  | Some widget =>
      let widget' := bump widget in
      let file_path := widget_path widget_id in
      open_write WIDGETS_DIR file_path (FJson (models.model_dump widget'))
  end.

Definition DATA_DB_FILE : string := "database/widgets.db".

Definition schema_query : string :=
  "SELECT name, sql FROM sqlite_master WHERE type='table' AND name NOT LIKE 'sqlite_%';".

(** The [sql] column of the rows, joined by a blank line; a row whose
    [sql] is NULL makes [str.join] raise. *)
Definition join_schema (schema_parts : list (option string)) : outcome string :=
  match mapM (λ part, part) schema_parts with
  | Some parts => Return (str_join (String "010"%char (String "010"%char "")) parts)
  | None => Raise (TypeError "sequence item: expected str instance, NoneType found")
  end.

Section Schema.

(** What sqlite answers when the query is run on the database file, opened
    read-only: the rows [(name, sql)], or the exception it raises. *)
Variable sqlite_execute : file_content → string → outcome (list (string * option string)).

(** [get_data_db_schema()] *)
Definition get_data_db_schema : M world string :=
  let* found := os_path_exists DATA_DB_FILE in
  if negb found then
    raise (ValueError ("Database file not found at '" +:+ DATA_DB_FILE
                       +:+ "'. Please provide the database."))
  else
    try_except
      (let* conn := open_read DATA_DB_FILE in
       let* rows := lift (sqlite_execute conn schema_query) in
       let schema_parts := rows.*2 in
       match schema_parts with
       | [] => raise (ValueError ("No tables found in the database '" +:+ DATA_DB_FILE +:+ "'."))
       | _ =>
           let* full_schema := lift (join_schema schema_parts) in
           ret full_schema
       end)
      ["sqlite3.Error"]
      (λ e, raise (ValueError ("Could not retrieve database schema: " +:+ exc_str e))).

End Schema.

End db.

(** ** [widget_runner.py] *)

Module widget_runner.

Section Runner.

(** What running the source file [src] as the module [name] defines:
    the attributes of the module, or the exception the load raises. *)
Variable py_exec : string → file_content → outcome (gmap string pyobj).

(** [importlib.util.spec_from_file_location(name, location)]: a spec
    with a source loader for a [.py] location, [None] for a suffix no
    loader knows.  Only the source loader is modelled. *)
Definition spec_from_file_location (name location : string) : option (string * string) :=
  if endswith location ".py" then Some (name, location) else None.

(** [if name in sys.modules: del sys.modules[name]] *)
Definition sys_modules_discard (name : string) : M world unit :=
  λ w, match sys_modules w !! name with
       | Some _ => (set_sys_modules (delete name) w, Return tt)
       | None => (w, Return tt)
       end.

(** [sys.modules[name] = module] *)
Definition sys_modules_set (name : string) (module : gmap string pyobj) : M world unit :=
  modify (set_sys_modules <[name := module]>).

(** [spec.loader.exec_module(widget_module)]: reads the source and runs
    it in the module, which is the object registered in [sys.modules];
    the attributes it defines are visible there.  The [__pycache__] entry
    the loader may leave behind is not modelled. *)
Definition exec_module (spec : string * string) : M world (gmap string pyobj) :=
  let '(name, location) := spec in
  let* src := open_read location in
  let* attrs := lift (py_exec name src) in
  let* _ := modify (set_sys_modules (alter (λ _, attrs) name)) in
  ret attrs.

(** [f(inputs)] *)
Definition call (f : pyobj) (inputs : gmap string form_value) : outcome pyval :=
  match f with
  | Callable g => g inputs
  | Data v => Raise (TypeError ("'" +:+ py_type v +:+ "' object is not callable"))
  end.

Definition module_name : string := "dynamic_widget_module".

(** [execute_widget_code(python_file_path, inputs)] *)
Definition execute_widget_code (python_file_path : string)
    (inputs : gmap string form_value) : M world pyval :=
  let* _ := sys_modules_discard module_name in
  try_finally
    (try_except
       (match spec_from_file_location module_name python_file_path with
        | None =>
            raise (ImportError ("Cannot create module spec from " +:+ python_file_path))
        | Some spec =>
            let widget_module : gmap string pyobj := ∅ in
            let* _ := sys_modules_set module_name widget_module in
            let* widget_module := exec_module spec in
            match widget_module !! "run_widget" with
            | None =>
                raise (AttributeError
                         "Widget code is missing the required 'run_widget' function.")
            | Some run_function =>
                let* result := lift (call run_function inputs) in
                ret result
            end
        end)
       ["Exception"]
       (λ e, raise e))
    (sys_modules_discard module_name).

End Runner.

End widget_runner.

(** ** [ai_integration.py] *)

Module ai_integration.

Definition required_keys : list string := ["name"; "category"; "python_code"; "html_code"].

(** [key in parsed_json], by the type of the decoded value: a key of an
    object, an element of a list, a substring of a string; anything else
    cannot be searched. *)
Definition py_in (key : string) (parsed_json : json) : outcome bool :=
  match parsed_json with
  | JObj fields => Return (bool_decide (is_Some (dict_get key fields)))
  | JList l =>
      Return (existsb (λ x, match x with JStr s => String.eqb s key | _ => false end) l)
  | JStr s => Return (contains_str key s)
  | JNull => Raise (TypeError "argument of type 'NoneType' is not iterable")
  | JBool _ => Raise (TypeError "argument of type 'bool' is not iterable")
  | JInt _ => Raise (TypeError "argument of type 'int' is not iterable")
  end.

(** [all(key in parsed_json for key in keys)] *)
Fixpoint all_in (keys : list string) (parsed_json : json) : outcome bool :=
  match keys with
  | [] => Return true
  | key :: rest =>
      match py_in key parsed_json with
      | Raise e => Raise e
      | Return false => Return false
      | Return true => all_in rest parsed_json
      end
  end.

Section Gemini.

(** The text of the model's response to the system prompt built around
    [schema] and to [user_prompt], as a document [json.loads] decodes or as
    text it rejects; or the exception of the call.  The wording of the
    system prompt is not reproduced. *)
Variable generate_content : string → string → outcome file_content.

(** [get_widget_code_from_gemini(user_prompt, schema)]; [api_key] is
    [os.getenv("GEMINI_API_KEY")]. *)
Definition get_widget_code_from_gemini (api_key : option string)
    (user_prompt schema : string) : M world json :=
  match api_key with
  | None | Some EmptyString => raise (ValueError "GEMINI_API_KEY environment variable not set.")
  | Some _ =>
      try_except
        (let* response := lift (generate_content schema user_prompt) in
         let* parsed_json := lift (json_loads response) in
         let* complete := lift (all_in required_keys parsed_json) in
         if negb complete then raise (ValueError "AI response is missing required keys.")
         else ret parsed_json)
        ["Exception"]
        (λ e, raise (ValueError ("Failed to generate widget from AI: " +:+ exc_str e)))
  end.

End Gemini.

End ai_integration.

(** ** [main.py]: the execution endpoint *)

Module main.

Record JSONResponse := mkJSONResponse {
  content : list (string * string);
  status_code : Z
}.

(** The request: what [await request.form()] gives, the items of the
    form in order or the exception of a body that cannot be parsed. *)
Record Request := mkRequest {
  form : outcome (list (string * form_value))
}.

(** The local variables of [run_widget_endpoint] that the [finally]
    block reads. *)
Record locals := mkLocals {
  inputs : gmap string form_value;
  temp_file_paths : list string;
  temp_py_file : option string
}.

Definition frame : Type := world * locals.

(** A storage or runner call made from the endpoint. *)
Definition in_world {A} (m : M world A) : M frame A :=
  λ '(w, l), match m w with (w', r) => ((w', l), r) end.

Definition set_input (key : string) (v : form_value) : M frame unit :=
  modify (λ '(w, l), (w, mkLocals (<[key := v]> (inputs l)) (temp_file_paths l) (temp_py_file l))).
Definition append_temp_file_path (path : string) : M frame unit :=
  modify (λ '(w, l), (w, mkLocals (inputs l) (temp_file_paths l ++ [path]) (temp_py_file l))).
Definition set_temp_py_file (path : string) : M frame unit :=
  modify (λ '(w, l), (w, mkLocals (inputs l) (temp_file_paths l) (Some path))).

(** [tempfile.NamedTemporaryFile(mode='w', delete=False, suffix='.py')]
    with the code written to it; [tmp] is the name the library picks,
    without the suffix. *)
Definition NamedTemporaryFile (tmp : string) (code : string) : M frame string :=
  let path := tmp +:+ ".py" in
  let* _ := set_temp_py_file path in
  let* _ := in_world (modify (set_fs <[path := FText code]>)) in
  ret path.

Definition upload_path (filename : string) : string := "uploads/" +:+ filename.

(** A name under which [open] creates a file directly in [uploads/]: no
    path separator, no NUL, not [.] or [..], at most 255 bytes. *)
Definition plain_filename (filename : string) : bool :=
  negb (contains_char "/" filename) && negb (contains_char "000" filename)
  && negb (String.eqb filename ".") && negb (String.eqb filename "..")
  && (String.length filename <=? 255)%nat.

(** The uploads the loop over the form can write in the store [w]: every
    named upload has a plain name that is not the name of a directory, and
    [uploads] itself is not a regular file. *)
Definition writable_upload (w : world) (item : string * form_value) : bool :=
  match item.2 with
  | UploadFile filename _ =>
      String.eqb filename ""
      || (plain_filename filename
          && bool_decide (upload_path filename ∉ dirs w)
          && negb (bool_decide (is_Some (fs w !! "uploads"))))
  | Str _ => true
  end.
Definition writable_uploads (w : world) (items : list (string * form_value)) : bool :=
  forallb (writable_upload w) items.

(** The body of the loop over the items of the form. *)
Definition marshal (item : string * form_value) : M frame unit :=
  let '(key, value) := item in
  match value with
  | UploadFile filename file =>
      if negb (String.eqb filename "") then
        let* _ := in_world (os_makedirs "uploads") in
        let temp_file_path := upload_path filename in
        let* _ := append_temp_file_path temp_file_path in
        let* _ := in_world (open_write "uploads" temp_file_path (FText file)) in
        set_input key (Str temp_file_path)
      else set_input key value
  | Str _ => set_input key value
  end.

(** [if os.path.exists(path): os.remove(path)] *)
Definition remove_if_exists (path : string) : M world unit :=
  let* found := os_path_exists path in
  if found then os_remove path else ret tt.

(** The [finally] block. *)
Definition cleanup : M frame unit :=
  let* temp_py_file := gets (λ s : frame, temp_py_file (snd s)) in
  let* _ := match temp_py_file with
            | Some path => in_world (remove_if_exists path)
            | None => ret tt
            end in
  let* paths := gets (λ s : frame, temp_file_paths (snd s)) in
  for_each paths (λ path, in_world (remove_if_exists path)).

Section Endpoint.

Variable py_exec : string → file_content → outcome (gmap string pyobj).

(** The body of the [try] block. *)
Definition attempt (tmp : string) (widget_id : Z) (widget : models.Widget)
    (request : Request) : M frame JSONResponse :=
  let* temp_py_path :=
    NamedTemporaryFile tmp (models.python_code (models.base widget)) in
  let* form_data := lift (form request) in
  let* _ := for_each form_data marshal in
  let* inputs := gets (λ s : frame, inputs (snd s)) in
  let* result :=
    in_world (widget_runner.execute_widget_code py_exec temp_py_path inputs) in
  let* _ := in_world (db.increment_usage_count widget_id) in
  let* output := lift (py_str result) in
  ret (mkJSONResponse [("output", output)] 200).

(** The [except Exception as e] handler. *)
Definition report (e : exn) : M frame JSONResponse :=
  ret (mkJSONResponse [("error", "An error occurred during execution: " +:+ exc_str e)] 500).

(** [run_widget_endpoint(widget_id, request)] on the frame of its
    local variables. *)
Definition run_widget_endpoint_body (tmp : string) (widget_id : Z) (request : Request)
    : M frame JSONResponse :=
  let* widget := in_world (db.get_widget_by_id widget_id) in
  match widget with
  | None => raise (HTTPException 404 "Widget data not found.")
  | Some widget =>
      try_finally
        (try_except (attempt tmp widget_id widget request) ["Exception"] report)
        cleanup
  end.

(** [run_widget_endpoint(widget_id, request)]: the locals start as
    [inputs = {}], [temp_file_paths = []] and are dropped on exit. *)
Definition run_widget_endpoint (tmp : string) (widget_id : Z) (request : Request)
    : M world JSONResponse :=
  λ w, match run_widget_endpoint_body tmp widget_id request (w, mkLocals ∅ [] None) with
       | ((w', _), r) => (w', r)
       end.

End Endpoint.

(** What the loop over the form stores in [inputs] for a value. *)
Definition marshalled (value : form_value) : form_value :=
  match value with
  | UploadFile filename _ =>
      if negb (String.eqb filename "") then Str (upload_path filename) else value
  | Str _ => value
  end.

(** The start-up lines of [main.py]. *)
Definition startup : M world unit :=
  let* _ := os_makedirs "uploads" in
  db.setup_storage.

(** [get_widgets_endpoint()] *)
Definition get_widgets_endpoint : M world (list models.Widget) :=
  db.get_all_widgets.

(** [get_widget_endpoint(widget_id)] *)
Definition get_widget_endpoint (widget_id : Z) : M world models.Widget :=
  let* widget := db.get_widget_by_id widget_id in
  match widget with
  | None => raise (HTTPException 404 ("Widget with ID " +:+ pretty widget_id +:+ " not found."))
  | Some widget => ret widget
  end.

Section Generation.

Variable sqlite_execute : file_content → string → outcome (list (string * option string)).
Variable generate_content : string → string → outcome file_content.

(** [generate_widget_endpoint(request)], with the environment variable
    and the two clock readings of [create_widget]. *)
Definition generate_widget_endpoint (api_key : option string) (t : Q) (now : datetime.t)
    (request : models.PromptRequest) : M world models.Widget :=
  try_excepts
    (let* schema := db.get_data_db_schema sqlite_execute in
     let* ai_output :=
       ai_integration.get_widget_code_from_gemini generate_content api_key
         (models.prompt request) schema in
     let* widget_data := lift (models.WidgetCreate_init ai_output) in
     let* new_widget := db.create_widget t now widget_data in
     ret new_widget)
    [(["ValueError"], λ e, raise (HTTPException 400 (exc_str e)));
     (["Exception"],
      λ e, raise (HTTPException 500 ("An unexpected internal error occurred: " +:+ exc_str e)))].

End Generation.

End main.

(** ** A fragment of Python for the bundles of the examples *)

Module python.

Definition dquote : string := String "034"%char "".

(** [inputs[k]] *)
Definition getitem (inputs : gmap string form_value) (k : string) : outcome pyval :=
  match inputs !! k with
  | Some (Str s) => Return (PyStr s)
  | Some (UploadFile filename _) =>
      Return (PyObject (Return ("UploadFile(filename='" +:+ filename +:+ "')")))
  | None => Raise (KeyError ("'" +:+ k +:+ "'"))
  end.

(** [a + b] on [int] and [str]. *)
Definition add (a b : pyval) : outcome pyval :=
  match a, b with
  | PyInt x, PyInt y => Return (PyInt (x + y))
  | PyStr x, PyStr y => Return (PyStr (x +:+ y))
  | PyStr _, _ =>
      Raise (TypeError ("can only concatenate str (not " +:+ dquote +:+ py_type b +:+ dquote
                        +:+ ") to str"))
  | _, _ =>
      Raise (TypeError ("unsupported operand type(s) for +: '" +:+ py_type a +:+ "' and '"
                        +:+ py_type b +:+ "'"))
  end.

Fixpoint digits_value (s : string) (acc : N) : option N :=
  match s with
  | EmptyString => Some acc
  | String c s' =>
      match Ascii.is_nat c with
      | Some d => digits_value s' (acc * 10 + N.of_nat d)%N
      | None => None
      end
  end.

(** [int(v)] on an [int] or on a [str] made of an optional sign and
    decimal digits; other spellings Python accepts are rejected. *)
Definition int (v : pyval) : outcome pyval :=
  let invalid s := Raise (ValueError ("invalid literal for int() with base 10: '" +:+ s +:+ "'")) in
  match v with
  | PyInt z => Return (PyInt z)
  | PyBool b => Return (PyInt (if b then 1 else 0))
  | PyStr s =>
      match s with
      | EmptyString => invalid s
      | String "-"%char (String _ _ as ds) =>
          match digits_value ds 0%N with
          | Some n => Return (PyInt (- Z.of_N n))
          | None => invalid s
          end
      | String "+"%char (String _ _ as ds) | ds =>
          match digits_value ds 0%N with
          | Some n => Return (PyInt (Z.of_N n))
          | None => invalid s
          end
      end
  | _ => Raise (TypeError ("int() argument must be a string, a bytes-like object or a real number, not '"
                           +:+ py_type v +:+ "'"))
  end.

End python.

(** ** Bundles, records and stores of the examples *)

Module samples.

(** [inputs['a'] + inputs['b']] as it is written. *)
Definition sum_code : string :=
  "def run_widget(inputs): return inputs['a'] + inputs['b']".
Definition sum_widget (inputs : gmap string form_value) : outcome pyval :=
  match python.getitem inputs "a" with
  | Raise e => Raise e
  | Return a =>
      match python.getitem inputs "b" with
      | Raise e => Raise e
      | Return b => python.add a b
      end
  end.

(** The same sum on the fields converted to integers. *)
Definition int_sum_code : string :=
  "def run_widget(inputs): return int(inputs['a']) + int(inputs['b'])".
Definition int_sum_widget (inputs : gmap string form_value) : outcome pyval :=
  match python.getitem inputs "a" with
  | Raise e => Raise e
  | Return a =>
      match python.int a with
      | Raise e => Raise e
      | Return x =>
          match python.getitem inputs "b" with
          | Raise e => Raise e
          | Return b =>
              match python.int b with
              | Raise e => Raise e
              | Return y => python.add x y
              end
          end
      end
  end.

(** An entry point that reports the name its module was loaded under. *)
Definition probe_code : string := "def run_widget(inputs): return __name__".
(** An entry point that raises. *)
Definition boom_code : string := "def run_widget(inputs): raise ValueError('boom')".
(** An entry point that leaves the interpreter. *)
Definition exit_code : string := "def run_widget(inputs): raise SystemExit('bye')".
(** A [run_widget] that is not a function. *)
Definition five_code : string := "run_widget = 5".
(** An entry point whose result cannot be printed: its [__str__] divides
    by zero. *)
Definition unprintable_code : string :=
  "run_widget = lambda inputs: type('R', (), {'__str__': lambda self: 1/0})()".
(** A bundle without [run_widget]. *)
Definition no_entry_code : string := "x = 1".
(** A bundle that does not compile. *)
Definition broken_code : string := "def run_widget(inputs): return 1 +".

(** What Python does with these bundles. *)
Definition py_exec (name : string) (src : file_content) : outcome (gmap string pyobj) :=
  match src with
  | FText code =>
      if String.eqb code sum_code then Return {["run_widget" := Callable sum_widget]}
      else if String.eqb code int_sum_code then Return {["run_widget" := Callable int_sum_widget]}
      else if String.eqb code probe_code then
        Return {["run_widget" := Callable (λ _, Return (PyStr name))]}
      else if String.eqb code boom_code then
        Return {["run_widget" := Callable (λ _, Raise (ValueError "boom"))]}
      else if String.eqb code exit_code then
        Return {["run_widget" := Callable (λ _, Raise (PyExc ["SystemExit"; "BaseException"] "bye"))]}
      else if String.eqb code five_code then Return {["run_widget" := Data (PyInt 5)]}
      else if String.eqb code unprintable_code then
        Return {["run_widget" :=
                   Callable (λ _, Return (PyObject (Raise
                     (PyExc ["ZeroDivisionError"; "ArithmeticError"; "Exception"; "BaseException"]
                            "division by zero"))))]}
      else if String.eqb code no_entry_code then Return {["x" := Data (PyInt 1)]}
      else Raise (Exception_ "SyntaxError" "invalid syntax")
  | FJson _ => Raise (Exception_ "SyntaxError" "invalid syntax")
  end.

Definition noon : datetime.t := datetime.mk 2024 5 1 12 0 0 0.
Definition later : datetime.t := datetime.mk 2024 5 1 12 0 0 250.

Definition adder : models.WidgetCreate :=
  models.mkWidgetCreate "Adder" "numerical" sum_code "<form></form>".
Definition int_adder : models.WidgetCreate :=
  models.mkWidgetCreate "Adder" "numerical" int_sum_code "<form></form>".
Definition probe : models.WidgetCreate :=
  models.mkWidgetCreate "Probe" "query" probe_code "<form></form>".

(** The store after [setup_storage()] and the start-up of [main.py]. *)
Definition fresh : world := World ∅ {["database"; "widgets"; "uploads"]} ∅.

(** A store holding the record [x] under its own id. *)
Definition holding (x : models.Widget) : world :=
  set_fs <[db.widget_path (models.id x) := FJson (models.model_dump x)]> fresh.

Definition text_form (a b : string) : main.Request :=
  main.mkRequest (Return [("a", Str a); ("b", Str b)]).

(** A database with two tables, an empty one, and a file that is not a
    database. *)
Definition sqlite_execute (conn : file_content) (query : string)
    : outcome (list (string * option string)) :=
  match conn with
  | FText "SQLite format 3: members, sales" =>
      Return [("members", Some "CREATE TABLE members (member_id INTEGER PRIMARY KEY)");
              ("sales", Some "CREATE TABLE sales (sale_id INTEGER PRIMARY KEY)")]
  | FText "SQLite format 3" => Return []
  | _ => Raise (PyExc ["DatabaseError"; "sqlite3.Error"; "Exception"; "BaseException"]
                      "file is not a database")
  end.

(** Answers of the model: a complete object, a list that names the four
    keys, text that is not JSON, and a failed call. *)
Definition generate_content (schema user_prompt : string) : outcome file_content :=
  if String.eqb user_prompt "add two numbers" then
    Return (FJson (JObj [("name", JStr "Adder"); ("category", JStr "numerical");
                         ("python_code", JStr int_sum_code);
                         ("html_code", JStr "<form></form>");
                         ("notes", JStr schema)]))
  else if String.eqb user_prompt "list the keys" then
    Return (FJson (JList [JStr "name"; JStr "category"; JStr "python_code"; JStr "html_code"]))
  else if String.eqb user_prompt "say sorry" then Return (FText "Sorry, I cannot help.")
  else Raise (Exception_ "ResourceExhausted" "429 quota exceeded").

(** The fresh store with the two-table database in place. *)
Definition with_database : world :=
  set_fs <[db.DATA_DB_FILE := FText "SQLite format 3: members, sales"]> fresh.

End samples.

(** * Properties *)

(** ** The ISO text of a datetime reads back *)

Lemma is_nat_pretty_N_char (d : N) :
  (d < 10)%N → Ascii.is_nat (pretty_N_char d) = Some (N.to_nat d).
Proof.
  intros Hd.
  destruct d as [|p]; [reflexivity|].
  do 4 (destruct p as [p|p|]; try reflexivity; try lia).
Qed.

Lemma take_digits_zfill (k : nat) (n : N) (rest : string) (acc : N) :
  datetime.take_digits k (datetime.zfill k n rest) acc
  = Some ((acc * 10 ^ N.of_nat k + n mod 10 ^ N.of_nat k)%N, rest).
Proof.
  revert acc. induction k as [|k IH]; intros acc.
  - simpl. rewrite N.mod_1_r. do 2 f_equal. lia.
  - cbn [datetime.zfill datetime.take_digits].
    rewrite is_nat_pretty_N_char by (apply N.mod_lt; lia).
    rewrite IH, N2Nat.id. do 2 f_equal.
    replace (N.of_nat (S k)) with (N.succ (N.of_nat k)) by lia.
    rewrite N.pow_succ_r'.
    rewrite (N.mul_comm 10 (10 ^ N.of_nat k)).
    rewrite (N.Div0.mod_mul_r n (10 ^ N.of_nat k) 10). lia.
Qed.

Lemma take_digits_zfill_small (k : nat) (n : N) (rest : string) :
  (n < 10 ^ N.of_nat k)%N →
  datetime.take_digits k (datetime.zfill k n rest) 0 = Some (n, rest).
Proof.
  intros Hn. rewrite take_digits_zfill, N.mod_small by done. by rewrite N.mul_0_l.
Qed.

Lemma valid_bounds (d : datetime.t) :
  datetime.valid d = true →
  (datetime.year d < 10 ^ 4 ∧ datetime.month d < 10 ^ 2 ∧ datetime.day d < 10 ^ 2 ∧
   datetime.hour d < 10 ^ 2 ∧ datetime.minute d < 10 ^ 2 ∧ datetime.second d < 10 ^ 2 ∧
   datetime.microsecond d < 10 ^ 6)%N.
Proof.
  unfold datetime.valid. rewrite !andb_true_iff.
  rewrite !N.leb_le, !N.ltb_lt.
  intros [[[[[[[[[? ?] ?] ?] ?] Hday] ?] ?] ?] ?].
  assert (datetime.days_in_month (datetime.year d) (datetime.month d) <= 31)%N.
  { unfold datetime.days_in_month. repeat case_match; lia. }
  change (10 ^ 4)%N with 10000%N. change (10 ^ 2)%N with 100%N.
  change (10 ^ 6)%N with 1000000%N. lia.
Qed.

Lemma fromisoformat_isoformat (d : datetime.t) :
  datetime.valid d = true → datetime.fromisoformat (datetime.isoformat d) = Some d.
Proof.
  intros Hv. destruct (valid_bounds d Hv) as (Hy & Hmo & Hd & Hh & Hmi & Hs & Hus).
  unfold datetime.fromisoformat, datetime.isoformat.
  rewrite (take_digits_zfill_small 4) by exact Hy. cbn [mbind option_bind datetime.expect Ascii.eqb Bool.eqb].
  rewrite (take_digits_zfill_small 2) by exact Hmo. cbn [mbind option_bind datetime.expect Ascii.eqb Bool.eqb].
  rewrite (take_digits_zfill_small 2) by exact Hd. cbn [mbind option_bind datetime.expect Ascii.eqb Bool.eqb].
  rewrite (take_digits_zfill_small 2) by exact Hh. cbn [mbind option_bind datetime.expect Ascii.eqb Bool.eqb].
  rewrite (take_digits_zfill_small 2) by exact Hmi. cbn [mbind option_bind datetime.expect Ascii.eqb Bool.eqb].
  rewrite (take_digits_zfill_small 2) by exact Hs. cbn [mbind option_bind].
  destruct (N.eqb_spec (datetime.microsecond d) 0) as [Hz|Hnz].
  - cbn zeta. destruct d as [y mo dd h mi se us]; cbn in Hz; subst us.
    cbn [datetime.year datetime.month datetime.day datetime.hour datetime.minute datetime.second].
    cbn [mbind option_bind]. rewrite Hv. reflexivity.
  - cbn [datetime.expect Ascii.eqb Bool.eqb mbind option_bind].
    rewrite (take_digits_zfill_small 6) by exact Hus.
    cbn [mbind option_bind]. cbn zeta. destruct d as [y mo dd h mi se us].
    cbn [datetime.year datetime.month datetime.day datetime.hour datetime.minute datetime.second
         datetime.microsecond].
    rewrite Hv. reflexivity.
Qed.

Lemma fromisoformat_valid (s : string) (d : datetime.t) :
  datetime.fromisoformat s = Some d → datetime.valid d = true.
Proof.
  unfold datetime.fromisoformat. intros H.
  repeat match type of H with
         | (?o ≫= _) = Some _ => destruct o as [[? ?]|] eqn:?; cbn [mbind option_bind] in H; [|discriminate]
         | (?o ≫= _) = Some _ => destruct o as [?|] eqn:?; cbn [mbind option_bind] in H; [|discriminate]
         end.
  repeat case_match; simplify_eq; done.
Qed.

(** ** A record reads back from its JSON form *)

Lemma Widget_init_model_dump (x : models.Widget) :
  datetime.valid (models.creation_date x) = true →
  models.Widget_init (models.model_dump x) = Return x.
Proof.
  intros Hv. destruct x as [[n c p h] i d u].
  unfold models.Widget_init, models.model_dump, models.validate.
  unfold models.str_field, models.int_field, models.datetime_field.
  cbn -[datetime.fromisoformat datetime.isoformat].
  cbn in Hv. rewrite (fromisoformat_isoformat d Hv). reflexivity.
Qed.

Lemma Widget_init_valid (data : json) (x : models.Widget) :
  models.Widget_init data = Return x → datetime.valid (models.creation_date x) = true.
Proof.
  unfold models.Widget_init. destruct data; try discriminate.
  destruct (models.validate fields) as [y|] eqn:Hval; [|discriminate].
  intros [= ->]. unfold models.validate in Hval.
  repeat match type of Hval with
         | (?o ≫= _) = Some _ => destruct o eqn:?; cbn [mbind option_bind] in Hval; [|discriminate]
         end.
  injection Hval as <-. cbn.
  match goal with H : models.datetime_field _ _ = Some _ |- _ =>
    unfold models.datetime_field in H; repeat case_match; try discriminate;
    by eapply fromisoformat_valid end.
Qed.

(** ** Paths *)

Lemma length_append (s t : string) :
  String.length (s +:+ t) = (String.length s + String.length t)%nat.
Proof.
  induction s as [|a s IH]; [reflexivity|].
  change (String a s +:+ t) with (String a (s +:+ t)). cbn. by rewrite IH.
Qed.

Lemma append_assoc (s t u : string) : (s +:+ t) +:+ u = s +:+ (t +:+ u).
Proof.
  induction s as [|a s IH]; [reflexivity|].
  change ((String a s +:+ t) +:+ u) with (String a ((s +:+ t) +:+ u)).
  change (String a s +:+ (t +:+ u)) with (String a (s +:+ (t +:+ u))).
  by rewrite IH.
Qed.

Lemma append_inj_l (s1 s2 suffix : string) :
  s1 +:+ suffix = s2 +:+ suffix → s1 = s2.
Proof.
  intros H.
  assert (Hlen : String.length s1 = String.length s2).
  { apply (f_equal String.length) in H. rewrite !length_append in H. lia. }
  revert s2 H Hlen. induction s1 as [|a s1 IH]; intros [|b s2] H Hlen; try discriminate.
  - reflexivity.
  - cbn in H. injection H as -> H. f_equal. apply IH; [exact H|]. cbn in Hlen. lia.
Qed.

Lemma widget_path_inj (i j : Z) : db.widget_path i = db.widget_path j → i = j.
Proof.
  unfold db.widget_path, os_path_join. intros H.
  apply (inj (String.app _)) in H. apply (inj (String.app _)) in H.
  apply append_inj_l in H. by apply (inj pretty) in H.
Qed.

Lemma last_char_append (s t : string) :
  t ≠ "" → last_char (s +:+ t) = last_char t.
Proof.
  intros Ht. induction s as [|a s IH]; [reflexivity|].
  change (String a s +:+ t) with (String a (s +:+ t)).
  cbn [last_char]. rewrite IH.
  destruct (s +:+ t) eqn:E; [|reflexivity].
  destruct s as [|b s'];
    [change (t = "") in E; congruence | change (String b (s' +:+ t) = "") in E; discriminate].
Qed.

Lemma widget_path_not_py (i : Z) (tmp : string) : tmp +:+ ".py" ≠ db.widget_path i.
Proof.
  unfold db.widget_path, os_path_join. intros H.
  apply (f_equal last_char) in H.
  rewrite last_char_append in H by discriminate.
  rewrite <- !append_assoc, last_char_append in H by discriminate.
  discriminate.
Qed.

Lemma widget_path_not_upload (i : Z) (filename : string) :
  main.upload_path filename ≠ db.widget_path i.
Proof. unfold main.upload_path, db.widget_path, os_path_join. discriminate. Qed.

Lemma endswith_append (s suffix : string) : endswith (s +:+ suffix) suffix = true.
Proof.
  induction s as [|a s IH].
  - change ("" +:+ suffix) with suffix.
    destruct suffix; cbn [endswith]; by rewrite String.eqb_refl.
  - change (String a s +:+ suffix) with (String a (s +:+ suffix)).
    cbn [endswith]. rewrite IH. by destruct (String.eqb _ _).
Qed.

(** ** The storage functions, step by step *)

Lemma os_path_exists_Some (path : string) (w : world) (c : file_content) :
  fs w !! path = Some c → os_path_exists path w = (w, Return true).
Proof.
  intros H. unfold os_path_exists, gets. by rewrite H, bool_decide_eq_true_2.
Qed.

Lemma os_path_exists_None (path : string) (w : world) :
  fs w !! path = None → os_path_exists path w = (w, Return false).
Proof.
  intros H. unfold os_path_exists, gets. rewrite H, bool_decide_eq_false_2; [done|].
  by intros [? ?].
Qed.

(** What [get_widget_by_id] does, by the content of the record file. *)
Lemma get_widget_by_id_eq (widget_id : Z) (w : world) :
  db.get_widget_by_id widget_id w =
  (w, match fs w !! db.widget_path widget_id with
      | None => Return None
      | Some c =>
          match json_load c with
          | Raise e => Raise e
          | Return data =>
              match models.Widget_init data with
              | Raise e => Raise e
              | Return x => Return (Some x)
              end
          end
      end).
Proof.
  unfold db.get_widget_by_id, bind.
  destruct (fs w !! db.widget_path widget_id) as [c|] eqn:E.
  - rewrite (os_path_exists_Some _ _ _ E). cbn [negb].
    unfold open_read. rewrite E. unfold lift, ret.
    destruct (json_load c) as [data|e]; [|reflexivity].
    by destruct (models.Widget_init data).
  - by rewrite (os_path_exists_None _ _ E).
Qed.

Lemma open_write_existing (parent path : string) (c c' : file_content) (w : world) :
  fs w !! path = Some c' →
  open_write parent path c w = (set_fs <[path := c]> w, Return tt).
Proof. intros H. unfold open_write. by rewrite H, bool_decide_eq_true_2. Qed.

Lemma open_write_in_dir (parent path : string) (c : file_content) (w : world) :
  parent ∈ dirs w →
  open_write parent path c w = (set_fs <[path := c]> w, Return tt).
Proof.
  intros H. unfold open_write. rewrite (bool_decide_eq_true_2 (parent ∈ dirs w)) by done.
  by rewrite orb_true_r.
Qed.

(** A record just written is the record read. *)
Lemma get_after_write (widget_id : Z) (x : models.Widget) (w : world) :
  datetime.valid (models.creation_date x) = true →
  let w' := set_fs <[db.widget_path widget_id := FJson (models.model_dump x)]> w in
  db.get_widget_by_id widget_id w' = (w', Return (Some x)).
Proof.
  intros Hv w'. rewrite get_widget_by_id_eq. subst w'. cbn [fs set_fs].
  rewrite lookup_insert_eq. cbn [json_load json_loads]. by rewrite Widget_init_model_dump.
Qed.

(** Writing another file leaves a read as it was. *)
Lemma get_after_other_write (widget_id : Z) (path : string) (c : file_content) (w : world) :
  path ≠ db.widget_path widget_id →
  db.get_widget_by_id widget_id (set_fs <[path := c]> w)
  = (set_fs <[path := c]> w, snd (db.get_widget_by_id widget_id w)).
Proof.
  intros Hne. rewrite !get_widget_by_id_eq. cbn [fs set_fs snd].
  by rewrite lookup_insert_ne.
Qed.

Lemma get_after_delete (widget_id : Z) (path : string) (w : world) :
  path ≠ db.widget_path widget_id →
  db.get_widget_by_id widget_id (set_fs (delete path) w)
  = (set_fs (delete path) w, snd (db.get_widget_by_id widget_id w)).
Proof.
  intros Hne. rewrite !get_widget_by_id_eq. cbn [fs set_fs snd].
  by rewrite lookup_delete_ne.
Qed.

Lemma create_widget_eq (t : Q) (now : datetime.t) (data : models.WidgetCreate) (w : world) :
  let x := models.mkWidget data (db.timestamp_ms t) now 0 in
  let path := db.widget_path (db.timestamp_ms t) in
  db.create_widget t now data w =
  if bool_decide (is_Some (fs w !! path)) || bool_decide (db.WIDGETS_DIR ∈ dirs w)
  then (set_fs <[path := FJson (models.model_dump x)]> w, Return x)
  else (w, Raise (FileNotFoundError path)).
Proof.
  intros x path. unfold db.create_widget, bind, open_write. fold path. fold x.
  by destruct (_ || _).
Qed.

Lemma create_widget_Return (t : Q) (now : datetime.t) (data : models.WidgetCreate)
    (w w' : world) (x : models.Widget) :
  db.create_widget t now data w = (w', Return x) →
  x = models.mkWidget data (db.timestamp_ms t) now 0 ∧
  w' = set_fs <[db.widget_path (db.timestamp_ms t) := FJson (models.model_dump x)]> w.
Proof.
  rewrite create_widget_eq. destruct (_ || _); [|discriminate].
  intros [= <- <-]. done.
Qed.

Lemma increment_usage_count_eq (widget_id : Z) (w : world) :
  db.increment_usage_count widget_id w =
  match snd (db.get_widget_by_id widget_id w) with
  | Raise e => (w, Raise e)
  | Return None => (w, Return tt)
  | Return (Some x) =>
      (set_fs <[db.widget_path widget_id := FJson (models.model_dump (db.bump x))]> w, Return tt)
  end.
Proof.
  unfold db.increment_usage_count, bind. rewrite get_widget_by_id_eq. cbn [snd].
  destruct (fs w !! db.widget_path widget_id) as [c|] eqn:E; [|reflexivity].
  destruct (json_load c) as [data|e]; [|reflexivity].
  destruct (models.Widget_init data) as [x|e]; [|reflexivity].
  by apply open_write_existing with c.
Qed.

(** ** The clock and the ids *)

Lemma Qcompare_cases (x y : Q) :
  match (x ?= y)%Q with
  | Lt => (x < y)%Q
  | Eq => (x == y)%Q
  | Gt => (y < x)%Q
  end.
Proof. destruct (Qcompare_spec x y); auto. Qed.

(** Rounding to the nearest integer reaches [m] only from [m - 1/2] on,
    and does reach an even [m] from there. *)
Lemma round_half_even_ge (x : Q) (m : Z) :
  m <= float64.round_half_even x → (inject_Z m - (1 # 2) <= x)%Q.
Proof.
  unfold float64.round_half_even.
  pose proof (Qfloor_le x) as Hlo.
  pose proof (Qcompare_cases (x - inject_Z (Qfloor x)) (1 # 2)) as Hc.
  intros Hm.
  assert (Hcase : m <= Qfloor x ∨
                  (m <= Qfloor x + 1 ∧ (1 # 2 <= x - inject_Z (Qfloor x))%Q)).
  { destruct (x - inject_Z (Qfloor x) ?= 1 # 2)%Q.
    - right. split; [destruct (Z.even _); lia|lra].
    - by left.
    - right. split; [lia|lra]. }
  destruct Hcase as [H|[H Hhalf]].
  - rewrite Zle_Qle in H. lra.
  - rewrite Zle_Qle, inject_Z_plus in H. change (inject_Z 1) with 1%Q in H. lra.
Qed.

Lemma round_half_even_le (x : Q) (m : Z) :
  Z.even m = true → (inject_Z m - (1 # 2) <= x)%Q → m <= float64.round_half_even x.
Proof.
  intros Heven Hx. unfold float64.round_half_even.
  pose proof (Qlt_floor x) as Hhi. pose proof (Qfloor_le x) as Hlo.
  pose proof (Qcompare_cases (x - inject_Z (Qfloor x)) (1 # 2)) as Hc.
  rewrite inject_Z_plus in Hhi. change (inject_Z 1) with 1%Q in Hhi.
  assert (Hm : m - 1 <= Qfloor x).
  { assert (H : (inject_Z m < inject_Z (Qfloor x + 2))%Q).
    { rewrite inject_Z_plus. change (inject_Z 2) with 2%Q. lra. }
    rewrite <- Zlt_Qlt in H. lia. }
  destruct (decide (m <= Qfloor x)) as [|Hlt].
  { destruct (_ ?= _)%Q; [destruct (Z.even (Qfloor x))| |]; lia. }
  assert (Hf : Qfloor x = m - 1) by lia.
  rewrite Hf in *.
  destruct (x - inject_Z (m - 1) ?= 1 # 2)%Q.
  - rewrite Z.even_sub, Heven. cbn. lia.
  - replace m with ((m - 1) + 1) in Hx by lia. rewrite inject_Z_plus in Hx.
    change (inject_Z 1) with 1%Q in Hx. lra.
  - lia.
Qed.

Lemma pow2_nonneg (s : Z) : 0 <= s → float64.pow2 s = inject_Z (2 ^ s).
Proof. intros Hs. unfold float64.pow2. by rewrite (proj2 (Z.leb_le 0 s) Hs). Qed.

Lemma pow2_neg (s : Z) : 0 < s → float64.pow2 (- s) = (/ inject_Z (2 ^ s))%Q.
Proof.
  intros Hs. unfold float64.pow2.
  rewrite (proj2 (Z.leb_gt 0 (- s))) by lia. by rewrite Z.opp_involutive.
Qed.

Lemma pow2_pos (s : Z) : (0 < float64.pow2 s)%Q.
Proof.
  unfold float64.pow2. destruct (0 <=? s) eqn:Hs.
  - apply Z.leb_le in Hs. rewrite <- (Zlt_Qlt 0). by apply Z.pow_pos_nonneg.
  - apply Z.leb_gt in Hs. apply Qinv_lt_0_compat. rewrite <- (Zlt_Qlt 0).
    apply Z.pow_pos_nonneg; lia.
Qed.

(** Below [2 ^ 52], [round_positive] rounds on the grid of the binade of
    its argument, whose step is a negative power of two. *)
Lemma round_positive_grid (x : Q) :
  float64.exponent x < 52 →
  let a := 2 ^ (52 - float64.exponent x) in
  float64.round_positive x
  = (inject_Z (float64.round_half_even (x * inject_Z a)) * / inject_Z a)%Q.
Proof.
  intros Hk a. unfold float64.round_positive.
  rewrite pow2_nonneg, pow2_neg by lia. reflexivity.
Qed.

Lemma exponent_ge_1 (y : Q) :
  (1 <= y)%Q → (y < inject_Z (2 ^ 52))%Q → 0 <= float64.exponent y < 52.
Proof.
  intros H1 Hhi. unfold float64.exponent.
  rewrite (proj2 (Qle_bool_iff 1 y) H1).
  split; [apply Z.log2_nonneg|].
  assert (Hf : 1 <= Qfloor y).
  { change 1 with (Qfloor 1). by apply Qfloor_resp_le. }
  apply Z.log2_lt_pow2; [lia|].
  rewrite Zlt_Qlt. pose proof (Qfloor_le y). lra.
Qed.

Lemma exponent_mono (x y : Q) :
  (x <= y)%Q → (1 <= y)%Q → float64.exponent x <= float64.exponent y.
Proof.
  intros Hxy Hy. unfold float64.exponent.
  rewrite (proj2 (Qle_bool_iff 1 y) Hy).
  destruct (Qle_bool 1 x) eqn:E.
  - apply Z.log2_le_mono. by apply Qfloor_resp_le.
  - pose proof (Z.log2_up_nonneg (Qceiling (/ x))).
    pose proof (Z.log2_nonneg (Qfloor y)). lia.
Qed.

Lemma round_nonneg (x : Q) : (0 <= x)%Q → (0 <= float64.round x)%Q.
Proof.
  intros Hx. unfold float64.round. pose proof (Qcompare_cases x 0) as Hc.
  destruct (x ?= 0)%Q; [lra|lra|].
  unfold float64.round_positive. apply Qmult_le_0_compat; [|apply Qlt_le_weak, pow2_pos].
  rewrite <- (Zle_Qle 0). apply round_half_even_le; [reflexivity|].
  pose proof (pow2_pos (52 - float64.exponent x)) as Hp.
  assert (0 <= x * float64.pow2 (52 - float64.exponent x))%Q
    by (apply Qmult_le_0_compat; lra).
  change (inject_Z 0) with 0%Q. lra.
Qed.

(** Two non-negative numbers below [2 ^ 52] that are at least 1 apart are
    rounded to binary64 numbers with different integer parts: the rounding
    error can pull the smaller one up to an integer, but then it pulls the
    larger one up to the next. *)
Lemma floor_round_step (x y : Q) :
  (0 <= x)%Q → (x + 1 <= y)%Q → (y < inject_Z (2 ^ 52))%Q →
  Qfloor (float64.round x) < Qfloor (float64.round y).
Proof.
  intros Hx Hxy Hy.
  assert (Hy1 : (1 <= y)%Q) by lra.
  destruct (exponent_ge_1 y Hy1 Hy) as [Hky0 Hky].
  assert (Hroundy : float64.round y = float64.round_positive y).
  { unfold float64.round. pose proof (Qcompare_cases y 0) as Hc.
    destruct (y ?= 0)%Q; [lra|lra|reflexivity]. }
  rewrite Hroundy, (round_positive_grid y Hky). cbv zeta.
  set (b := 2 ^ (52 - float64.exponent y)).
  assert (Hb : 2 <= b).
  { subst b. change 2 with (2 ^ 1) at 1. apply Z.pow_le_mono_r; lia. }
  assert (Hbeven : Z.even b = true).
  { subst b. replace (52 - float64.exponent y) with (Z.succ (51 - float64.exponent y)) by lia.
    rewrite Z.pow_succ_r by lia. by rewrite Z.even_mul. }
  remember (Qfloor (float64.round x)) as n eqn:Hn.
  assert (Hgoal :
    (inject_Z ((n + 1) * b) - (1 # 2) <= y * inject_Z b)%Q →
    n < Qfloor (inject_Z (float64.round_half_even (y * inject_Z b)) * / inject_Z b)%Q).
  { intros Hgrid. apply (round_half_even_le _ ((n + 1) * b)) in Hgrid.
    2:{ by rewrite Z.even_mul, Hbeven, orb_true_r. }
    assert (Hle : (inject_Z (n + 1)
                   <= inject_Z (float64.round_half_even (y * inject_Z b)) * / inject_Z b)%Q).
    { apply Qle_shift_div_l; [rewrite <- (Zlt_Qlt 0); lia|].
      rewrite <- inject_Z_mult. by rewrite <- Zle_Qle. }
    apply Qfloor_resp_le in Hle. rewrite Qfloor_Z in Hle. lia. }
  apply Hgoal. clear Hgoal.
  rewrite inject_Z_mult, inject_Z_plus. change (inject_Z 1) with 1%Q.
  assert (Hbq : (2 <= inject_Z b)%Q) by (by rewrite <- (Zle_Qle 2)).
  unfold float64.round in Hn. pose proof (Qcompare_cases x 0) as Hc.
  destruct (x ?= 0)%Q.
  - subst n. change (inject_Z (Qfloor 0)) with 0%Q.
    assert (1 * inject_Z b <= y * inject_Z b)%Q by (apply Qmult_le_compat_r; lra).
    lra.
  - lra.
  - assert (Hkx : float64.exponent x <= float64.exponent y) by (apply exponent_mono; lra).
    rewrite (round_positive_grid x) in Hn by lia. cbv zeta in Hn.
    set (a := 2 ^ (52 - float64.exponent x)) in *.
    assert (Hab : b <= a) by (subst a b; apply Z.pow_le_mono_r; lia).
    assert (Haq : (inject_Z b <= inject_Z a)%Q) by (by rewrite <- Zle_Qle).
    pose proof (Qfloor_le (inject_Z (float64.round_half_even (x * inject_Z a))
                           * / inject_Z a)) as Hfl.
    rewrite <- Hn in Hfl.
    assert (Hna : n * a <= float64.round_half_even (x * inject_Z a)).
    { rewrite Zle_Qle, inject_Z_mult.
      apply (Qmult_le_r _ _ (/ inject_Z a)); [apply Qinv_lt_0_compat; lra|].
      rewrite <- Qmult_assoc, Qmult_inv_r by lra. lra. }
    apply round_half_even_ge in Hna. rewrite inject_Z_mult in Hna.
    assert (Hshift : ((x - inject_Z n) * inject_Z b <= (y - inject_Z n - 1) * inject_Z b)%Q)
      by (apply Qmult_le_compat_r; lra).
    destruct (Qlt_le_dec x (inject_Z n)) as [Hlow|Hhigh].
    + assert (0 <= (inject_Z n - x) * (inject_Z a - inject_Z b))%Q
        by (apply Qmult_le_0_compat; lra).
      lra.
    + assert (0 <= (x - inject_Z n) * inject_Z b)%Q by (apply Qmult_le_0_compat; lra).
      lra.
Qed.

Lemma timestamp_ms_floor (t : Q) :
  (0 <= t)%Q → db.timestamp_ms t = Qfloor (float64.round (t * 1000)).
Proof.
  intros Ht. unfold db.timestamp_ms.
  assert (H : (0 <= float64.round (t * 1000))%Q) by (apply round_nonneg; lra).
  destruct (float64.round (t * 1000)) as [n d]. unfold Qle in H. cbn in *.
  apply Z.quot_div_nonneg; lia.
Qed.

Lemma timestamp_ms_step (t1 t2 : Q) :
  (0 <= t1)%Q → (t1 + (1 # 1000) <= t2)%Q → (t2 * 1000 < inject_Z (2 ^ 52))%Q →
  db.timestamp_ms t1 < db.timestamp_ms t2.
Proof.
  intros H0 Hstep Hbound.
  rewrite !timestamp_ms_floor by lra.
  apply floor_round_step; lra.
Qed.

(** The product is rounded before it is truncated: for the binary64
    number nearest to 1700000000.102 the exact product lies just below
    1700000000102 and is rounded up to it. *)
Example timestamp_ms_rounds_the_product :
  let t := (7130316800427819 # 4194304)%Q in
  Qfloor (t * 1000) = 1700000000101 ∧ db.timestamp_ms t = 1700000000102.
Proof. split; vm_compute; reflexivity. Qed.

(** ** Ids (claim C2) *)

(** C2, as stated, fails: two successful creates whose clock readings fall
    in the same millisecond (here 1700000000.25 s and 2^-12 s later) are
    given the same id, and the later record replaces the earlier one. *)
Lemma ids_collide_within_millisecond :
  let t1 := (6800000001 # 4)%Q in
  let t2 := (6963200001025 # 4096)%Q in
  let r1 := db.create_widget t1 samples.noon samples.adder samples.fresh in
  let r2 := db.create_widget t2 samples.later samples.probe (fst r1) in
  (t1 < t2)%Q ∧
  ∃ x1 x2, snd r1 = Return x1 ∧ snd r2 = Return x2 ∧
           x1 ≠ x2 ∧ models.id x1 = models.id x2 ∧ ¬ (models.id x1 < models.id x2) ∧
           snd (db.get_widget_by_id (models.id x1) (fst r2)) = Return (Some x2).
Proof.
  cbv zeta. split; [reflexivity|].
  eexists _, _. split; [vm_compute; reflexivity|]. split; [vm_compute; reflexivity|].
  split; [discriminate|]. split; [reflexivity|]. split; [vm_compute; discriminate|].
  vm_compute. reflexivity.
Qed.

(** C2, amended: the id of a successful create is [int(time.time() *
    1000)], the clock reading times 1000 in binary64 arithmetic, cut to an
    integer; of two successful creates whose readings (not before the
    epoch, below 2^52 ms) are at least one millisecond apart, the later
    one gets the strictly greater id. *)
Theorem ids_increase_across_milliseconds
    (t1 t2 : Q) (now1 now2 : datetime.t) (d1 d2 : models.WidgetCreate)
    (w1 w1' w2 w2' : world) (x1 x2 : models.Widget) :
  (0 <= t1)%Q → (t1 + (1 # 1000) <= t2)%Q → (t2 * 1000 < inject_Z (2 ^ 52))%Q →
  db.create_widget t1 now1 d1 w1 = (w1', Return x1) →
  db.create_widget t2 now2 d2 w2 = (w2', Return x2) →
  models.id x1 = db.timestamp_ms t1 ∧ models.id x2 = db.timestamp_ms t2 ∧
  models.id x1 < models.id x2.
Proof.
  intros H0 Hstep Hbound [-> _]%create_widget_Return [-> _]%create_widget_Return.
  cbn [models.id]. auto using timestamp_ms_step.
Qed.

Lemma ids_increase_across_milliseconds_witness :
  let t1 := (6800000001 # 4)%Q in
  let t2 := (870400000129 # 512)%Q in
  let r1 := db.create_widget t1 samples.noon samples.adder samples.fresh in
  let r2 := db.create_widget t2 samples.later samples.probe (fst r1) in
  let x1 := models.mkWidget samples.adder 1700000000250 samples.noon 0 in
  let x2 := models.mkWidget samples.probe 1700000000251 samples.later 0 in
  (snd r1 = Return x1 ∧ snd r2 = Return x2) ∧
  (models.id x1 = db.timestamp_ms t1 ∧ models.id x2 = db.timestamp_ms t2 ∧
   models.id x1 < models.id x2).
Proof.
  intros t1 t2 r1 r2 x1 x2.
  split; [split; vm_compute; reflexivity|].
  refine (ids_increase_across_milliseconds t1 t2
            samples.noon samples.later samples.adder samples.probe
            samples.fresh (fst r1) (fst r1) (fst r2) x1 x2 _ _ _ _ _).
  - vm_compute. discriminate.
  - vm_compute. discriminate.
  - vm_compute. reflexivity.
  - vm_compute. reflexivity.
  - vm_compute. reflexivity.
Defined.

(** ** Round trip (claim C4) *)

(** C4: after a successful [create_widget], reading the id it returned
    gives back the very record it returned. *)
Theorem create_then_get_roundtrip
    (t : Q) (now : datetime.t) (data : models.WidgetCreate) (w w' : world) (x : models.Widget) :
  datetime.valid now = true →
  db.create_widget t now data w = (w', Return x) →
  db.get_widget_by_id (models.id x) w' = (w', Return (Some x)).
Proof.
  intros Hv [Hx ->]%create_widget_Return.
  assert (Hid : models.id x = db.timestamp_ms t) by (by subst x).
  rewrite <- Hid. apply get_after_write. by subst x.
Qed.

Lemma create_then_get_roundtrip_witness :
  let r := db.create_widget (17000000000001 # 10000) samples.noon samples.adder samples.fresh in
  let x := models.mkWidget samples.adder 1700000000000 samples.noon 0 in
  snd r = Return x ∧ db.get_widget_by_id (models.id x) (fst r) = (fst r, Return (Some x)).
Proof.
  intros r x. split; [vm_compute; reflexivity|].
  refine (create_then_get_roundtrip (17000000000001 # 10000) samples.noon samples.adder
            samples.fresh (fst r) x _ _).
  - vm_compute. reflexivity.
  - vm_compute. reflexivity.
Defined.

Lemma get_widget_by_id_valid (widget_id : Z) (w w' : world) (x : models.Widget) :
  db.get_widget_by_id widget_id w = (w', Return (Some x)) →
  datetime.valid (models.creation_date x) = true.
Proof.
  rewrite get_widget_by_id_eq. intros [= _ H].
  destruct (fs w !! db.widget_path widget_id) as [c|]; [|discriminate].
  destruct (json_load c) as [data|]; [|discriminate].
  destruct (models.Widget_init data) as [y|] eqn:Hy; [|discriminate].
  injection H as ->. by eapply Widget_init_valid.
Qed.

(** ** Usage counter (claim C7) *)

(** C7: [increment_usage_count] changes nothing when the id has no record;
    when the record is there, it is rewritten with [usage_count] one higher
    and every other field as it was, and no other file is touched. *)
Theorem increment_usage_count_frame (widget_id : Z) (w : world) :
  (fs w !! db.widget_path widget_id = None →
   db.increment_usage_count widget_id w = (w, Return tt)) ∧
  (∀ x : models.Widget,
     db.get_widget_by_id widget_id w = (w, Return (Some x)) →
     ∃ (w' : world) (x' : models.Widget),
       db.increment_usage_count widget_id w = (w', Return tt) ∧
       db.get_widget_by_id widget_id w' = (w', Return (Some x')) ∧
       models.usage_count x' = models.usage_count x + 1 ∧
       models.id x' = models.id x ∧
       models.base x' = models.base x ∧
       models.creation_date x' = models.creation_date x ∧
       (∀ path, path ≠ db.widget_path widget_id → fs w' !! path = fs w !! path) ∧
       dirs w' = dirs w ∧ sys_modules w' = sys_modules w).
Proof.
  split.
  - intros Hnone. rewrite increment_usage_count_eq, get_widget_by_id_eq, Hnone. reflexivity.
  - intros x Hget.
    exists (set_fs <[db.widget_path widget_id := FJson (models.model_dump (db.bump x))]> w),
           (db.bump x).
    split; [by rewrite increment_usage_count_eq, Hget|].
    split; [apply get_after_write; cbn; by eapply get_widget_by_id_valid|].
    repeat split; try reflexivity.
    intros path Hne. cbn [fs set_fs]. by rewrite lookup_insert_ne.
Qed.

Lemma increment_usage_count_frame_witness :
  let x := models.mkWidget samples.adder 7 samples.noon 0 in
  let w := samples.holding x in
  db.increment_usage_count 8 w = (w, Return tt) ∧
  ∃ (w' : world) (x' : models.Widget),
    db.increment_usage_count 7 w = (w', Return tt) ∧
    db.get_widget_by_id 7 w' = (w', Return (Some x')) ∧
    models.usage_count x' = 1.
Proof.
  intros x w. split.
  - refine (proj1 (increment_usage_count_frame 8 w) _). vm_compute. reflexivity.
  - destruct (proj2 (increment_usage_count_frame 7 w) x) as (w' & x' & Hinc & Hget & Hu & _).
    + vm_compute. reflexivity.
    + exists w', x'. split; [exact Hinc|]. split; [exact Hget|]. exact Hu.
Defined.

(** ** Corrupt records (claim C10) *)




(** ** The runner, step by step *)

Lemma try_except_reraise {S A} (body : M S A) (classes : list string) (s : S) :
  try_except body classes (λ e, raise e) s = body s.
Proof.
  unfold try_except, raise. destruct (body s) as [s' [a|e]]; [reflexivity|].
  by destruct (existsb _ _).
Qed.

Lemma sys_modules_discard_eq (name : string) (w : world) :
  widget_runner.sys_modules_discard name w = (set_sys_modules (delete name) w, Return tt).
Proof.
  unfold widget_runner.sys_modules_discard.
  destruct (sys_modules w !! name) eqn:E; [reflexivity|].
  destruct w as [f d m]. unfold set_sys_modules. cbn in *.
  by rewrite delete_id.
Qed.

(** What [execute_widget_code] does: the registry ends without the module
    name and otherwise as it was, and the outcome is decided by the
    location, the source and the entry point. *)
Lemma execute_widget_code_eq
    (py_exec : string → file_content → outcome (gmap string pyobj))
    (path : string) (inputs : gmap string form_value) (w : world) :
  widget_runner.execute_widget_code py_exec path inputs w =
  (set_sys_modules (delete widget_runner.module_name) w,
   if endswith path ".py" then
     match fs w !! path with
     | None => Raise (FileNotFoundError path)
     | Some src =>
         match py_exec widget_runner.module_name src with
         | Raise e => Raise e
         | Return attrs =>
             match attrs !! "run_widget" with
             | None => Raise (AttributeError
                                "Widget code is missing the required 'run_widget' function.")
             | Some f => widget_runner.call f inputs
             end
         end
     end
   else Raise (ImportError ("Cannot create module spec from " +:+ path))).
Proof.
  unfold widget_runner.execute_widget_code, bind at 1.
  rewrite sys_modules_discard_eq.
  unfold try_finally. rewrite try_except_reraise.
  unfold widget_runner.spec_from_file_location.
  destruct w as [f d m]. unfold set_sys_modules. cbn [fs dirs sys_modules].
  destruct (endswith path ".py").
  - unfold bind, widget_runner.sys_modules_set, modify, set_sys_modules.
    cbn [fs dirs sys_modules].
    unfold widget_runner.exec_module, bind, open_read. cbn [fs dirs sys_modules].
    destruct (f !! path) as [src|].
    + unfold lift. destruct (py_exec widget_runner.module_name src) as [attrs|e].
      * unfold modify, set_sys_modules, ret. cbn [fs dirs sys_modules].
        destruct (attrs !! "run_widget") as [g|].
        -- destruct (widget_runner.call g inputs);
             rewrite sys_modules_discard_eq; unfold set_sys_modules; cbn [fs dirs sys_modules];
             by rewrite delete_alter, delete_insert_eq, delete_delete_eq.
        -- unfold raise. rewrite sys_modules_discard_eq. unfold set_sys_modules.
           cbn [fs dirs sys_modules].
           by rewrite delete_alter, delete_insert_eq, delete_delete_eq.
      * rewrite sys_modules_discard_eq. unfold set_sys_modules. cbn [fs dirs sys_modules].
        by rewrite delete_insert_eq, delete_delete_eq.
    + rewrite sys_modules_discard_eq. unfold set_sys_modules. cbn [fs dirs sys_modules].
      by rewrite delete_insert_eq, delete_delete_eq.
  - unfold raise. rewrite sys_modules_discard_eq. unfold set_sys_modules.
    cbn [fs dirs sys_modules]. by rewrite delete_delete_eq.
Qed.

(** ** The endpoint, step by step *)

Lemma remove_if_exists_eq (path : string) (w : world) :
  main.remove_if_exists path w = (set_fs (delete path) w, Return tt).
Proof.
  unfold main.remove_if_exists, bind.
  destruct (fs w !! path) as [c|] eqn:E.
  - rewrite (os_path_exists_Some _ _ _ E). unfold os_remove. by rewrite E.
  - rewrite (os_path_exists_None _ _ E). unfold ret, set_fs.
    destruct w as [f d m]. cbn in *. by rewrite delete_id.
Qed.

Lemma marshal_eq (key : string) (value : form_value) (w : world) (l : main.locals) :
  main.marshal (key, value) (w, l) =
  match value with
  | UploadFile filename file =>
      if negb (String.eqb filename "") then
        ((set_fs <[main.upload_path filename := FText file]>
            (set_dirs (λ ds, {["uploads"]} ∪ ds) w),
          main.mkLocals (<[key := Str (main.upload_path filename)]> (main.inputs l))
                        (main.temp_file_paths l ++ [main.upload_path filename])
                        (main.temp_py_file l)),
         Return tt)
      else
        ((w, main.mkLocals (<[key := value]> (main.inputs l)) (main.temp_file_paths l)
                           (main.temp_py_file l)), Return tt)
  | Str _ =>
      ((w, main.mkLocals (<[key := value]> (main.inputs l)) (main.temp_file_paths l)
                         (main.temp_py_file l)), Return tt)
  end.
Proof.
  unfold main.marshal. destruct value as [s|filename file]; [reflexivity|].
  destruct (negb (String.eqb filename "")); [|reflexivity].
  unfold bind, main.in_world, main.append_temp_file_path, os_makedirs, modify.
  cbn beta iota zeta.
  rewrite open_write_in_dir by (cbn; set_solver).
  reflexivity.
Qed.

(** The loop over the form never raises; it keeps the registry and the
    temporary source file's name, and records the path of every file it
    writes. *)
Lemma for_each_marshal (items : list (string * form_value)) (w : world) (l : main.locals) :
  ∃ (w' : world) (l' : main.locals),
    for_each items main.marshal (w, l) = ((w', l'), Return tt) ∧
    main.temp_py_file l' = main.temp_py_file l ∧
    sys_modules w' = sys_modules w ∧
    (∀ p, p ∈ main.temp_file_paths l → p ∈ main.temp_file_paths l') ∧
    (∀ key filename file, (key, UploadFile filename file) ∈ items → filename ≠ "" →
       main.upload_path filename ∈ main.temp_file_paths l') ∧
    (∀ q, (∀ filename, q ≠ main.upload_path filename) → fs w' !! q = fs w !! q).
Proof.
  revert w l. induction items as [|[key value] items IH]; intros w l.
  - exists w, l. cbn. repeat split; auto. intros ??? H. by apply elem_of_nil in H.
  - cbn [for_each]. unfold bind. rewrite marshal_eq.
    destruct value as [s|filename file].
    + destruct (IH w (main.mkLocals (<[key := Str s]> (main.inputs l)) (main.temp_file_paths l)
                                   (main.temp_py_file l))) as (w' & l' & Hrun & Hpy & Hsys & Hold & Hup & Hfs).
      exists w', l'. rewrite Hrun. repeat split; auto.
      intros k f d Hin Hne. apply elem_of_cons in Hin as [[=]|Hin]; eauto.
    + destruct (String.eqb_spec filename "") as [->|Hname]; cbn [negb].
      * destruct (IH w (main.mkLocals (<[key := UploadFile "" file]> (main.inputs l))
                                     (main.temp_file_paths l) (main.temp_py_file l)))
          as (w' & l' & Hrun & Hpy & Hsys & Hold & Hup & Hfs).
        exists w', l'. rewrite Hrun. repeat split; auto.
        intros k f d Hin Hne. apply elem_of_cons in Hin as [[= -> -> ->]|Hin]; [done|eauto].
      * destruct (IH (set_fs <[main.upload_path filename := FText file]>
                        (set_dirs (λ ds, {["uploads"]} ∪ ds) w))
                     (main.mkLocals (<[key := Str (main.upload_path filename)]> (main.inputs l))
                                    (main.temp_file_paths l ++ [main.upload_path filename])
                                    (main.temp_py_file l)))
          as (w' & l' & Hrun & Hpy & Hsys & Hold & Hup & Hfs).
        exists w', l'. rewrite Hrun. repeat split; auto.
        -- intros p Hp. apply Hold. cbn. set_solver.
        -- intros k f d Hin Hne. apply elem_of_cons in Hin as [[= -> -> ->]|Hin]; [|eauto].
           apply Hold. cbn. set_solver.
        -- intros q Hq. rewrite Hfs by done. cbn [fs set_fs set_dirs].
           by rewrite lookup_insert_ne.
Qed.

(** The loop of the [finally] block removes every recorded path and
    nothing else. *)
Lemma for_each_remove (paths : list string) (w : world) (l : main.locals) :
  ∃ w' : world,
    for_each paths (λ path, main.in_world (main.remove_if_exists path)) (w, l)
    = ((w', l), Return tt) ∧
    sys_modules w' = sys_modules w ∧ dirs w' = dirs w ∧
    (∀ q, q ∈ paths → fs w' !! q = None) ∧
    (∀ q, fs w !! q = None → fs w' !! q = None) ∧
    (∀ q, q ∉ paths → fs w' !! q = fs w !! q).
Proof.
  revert w. induction paths as [|p paths IH]; intros w.
  - exists w. cbn. repeat split; auto. intros q H. by apply elem_of_nil in H.
  - cbn [for_each]. unfold bind, main.in_world at 1. rewrite remove_if_exists_eq.
    destruct (IH (set_fs (delete p) w)) as (w' & Hrun & Hsys & Hdirs & Hgone & Hkeep & Hother).
    exists w'. rewrite Hrun. repeat split; auto.
    + intros q Hq. apply elem_of_cons in Hq as [->|Hq]; [|by apply Hgone].
      apply Hkeep. cbn. by rewrite lookup_delete_eq.
    + intros q Hq. apply Hkeep. cbn. destruct (decide (p = q)) as [->|Hne].
      * by rewrite lookup_delete_eq.
      * by rewrite lookup_delete_ne.
    + intros q [Hne Hq]%not_elem_of_cons. rewrite Hother by done. cbn.
      by rewrite lookup_delete_ne.
Qed.

Lemma cleanup_spec (w : world) (l : main.locals) (path : string) :
  main.temp_py_file l = Some path →
  ∃ w' : world,
    main.cleanup (w, l) = ((w', l), Return tt) ∧
    sys_modules w' = sys_modules w ∧ dirs w' = dirs w ∧
    fs w' !! path = None ∧
    (∀ q, q ∈ main.temp_file_paths l → fs w' !! q = None) ∧
    (∀ q, q ≠ path → q ∉ main.temp_file_paths l → fs w' !! q = fs w !! q).
Proof.
  intros Hpy. unfold main.cleanup, bind, gets. cbn [snd]. rewrite Hpy.
  unfold main.in_world at 1. rewrite remove_if_exists_eq. cbn beta iota zeta.
  destruct (for_each_remove (main.temp_file_paths l) (set_fs (delete path) w) l)
    as (w' & Hrun & Hsys & Hdirs & Hgone & Hkeep & Hother).
  exists w'. cbn [snd]. rewrite Hrun. repeat split; auto.
  - apply Hkeep. cbn. by rewrite lookup_delete_eq.
  - intros q Hne Hq. rewrite Hother by done. cbn. by rewrite lookup_delete_ne.
Qed.

Lemma increment_usage_count_registry (widget_id : Z) (w w' : world) (r : outcome unit) :
  db.increment_usage_count widget_id w = (w', r) →
  sys_modules w' = sys_modules w ∧
  (∀ q, q ≠ db.widget_path widget_id → fs w' !! q = fs w !! q).
Proof.
  rewrite increment_usage_count_eq.
  destruct (snd (db.get_widget_by_id widget_id w)) as [[x|]|e]; intros [= <- <-];
    split; try done.
  intros q Hq. cbn. by rewrite lookup_insert_ne.
Qed.

(** The state in which the [finally] block starts: the name of the
    temporary source file is recorded, and once the form has been read the
    registry has lost the module name and the path of every upload is
    recorded. *)
Lemma guarded_attempt_state
    (py_exec : string → file_content → outcome (gmap string pyobj))
    (tmp : string) (widget_id : Z) (x : models.Widget) (request : main.Request) (w : world) :
  ∃ (w2 : world) (l2 : main.locals) (r : outcome main.JSONResponse),
    try_except (main.attempt py_exec tmp widget_id x request) ["Exception"] main.report
      (w, main.mkLocals ∅ [] None) = ((w2, l2), r) ∧
    main.temp_py_file l2 = Some (tmp +:+ ".py") ∧
    match main.form request with
    | Return items =>
        sys_modules w2 = delete widget_runner.module_name (sys_modules w) ∧
        ∀ key filename file, (key, UploadFile filename file) ∈ items → filename ≠ "" →
          main.upload_path filename ∈ main.temp_file_paths l2
    | Raise _ => sys_modules w2 = sys_modules w
    end.
Proof.
  unfold try_except, main.attempt, bind at 1.
  unfold main.NamedTemporaryFile, bind, main.set_temp_py_file, modify, main.in_world, ret, lift.
  cbn beta iota zeta.
  destruct (main.form request) as [items|e].
  - edestruct (for_each_marshal items) as (w2 & l2 & Hrun & Hpy & Hsys & _ & Hup & _).
    rewrite Hrun. unfold gets. cbn [snd]. rewrite execute_widget_code_eq.
    match goal with |- context [if endswith ?p ?q then ?a else ?b] =>
      destruct (if endswith p q then a else b) as [v|e] end.
    + destruct (db.increment_usage_count widget_id _) as [w4 r4] eqn:Hinc.
      apply increment_usage_count_registry in Hinc as [Hreg _].
      destruct r4 as [[]|e].
      * destruct (py_str v) as [output|e].
        -- eexists _, _, _. split; [reflexivity|]. split; [exact Hpy|].
           split; [|exact Hup]. rewrite Hreg. cbn. by rewrite Hsys.
        -- destruct (existsb _ _); (eexists _, _, _; split; [reflexivity|]; split; [exact Hpy|]);
             (split; [|exact Hup]; rewrite Hreg; cbn; by rewrite Hsys).
      * destruct (existsb _ _); (eexists _, _, _; split; [reflexivity|]; split; [exact Hpy|]);
          (split; [|exact Hup]; rewrite Hreg; cbn; by rewrite Hsys).
    + destruct (existsb _ _); (eexists _, _, _; split; [reflexivity|]; split; [exact Hpy|]);
        (split; [|exact Hup]; cbn; by rewrite Hsys).
  - destruct (existsb _ _); (eexists _, _, _; split; [reflexivity|]; split; reflexivity).
Qed.

(** The endpoint for a stored widget: the guarded attempt, then the
    [finally] block, which does not raise. *)
Lemma run_widget_endpoint_found
    (py_exec : string → file_content → outcome (gmap string pyobj))
    (tmp : string) (widget_id : Z) (x : models.Widget) (request : main.Request) (w : world) :
  db.get_widget_by_id widget_id w = (w, Return (Some x)) →
  ∃ (w2 w' : world) (l2 : main.locals) (r : outcome main.JSONResponse),
    try_except (main.attempt py_exec tmp widget_id x request) ["Exception"] main.report
      (w, main.mkLocals ∅ [] None) = ((w2, l2), r) ∧
    main.cleanup (w2, l2) = ((w', l2), Return tt) ∧
    main.run_widget_endpoint py_exec tmp widget_id request w = (w', r).
Proof.
  intros Hget.
  destruct (guarded_attempt_state py_exec tmp widget_id x request w)
    as (w2 & l2 & r & Hrun & Hpy & _).
  destruct (cleanup_spec w2 l2 _ Hpy) as (w' & Hclean & _).
  exists w2, w', l2, r. split; [exact Hrun|]. split; [exact Hclean|].
  unfold main.run_widget_endpoint, main.run_widget_endpoint_body, bind.
  unfold main.in_world at 1. rewrite Hget.
  unfold try_finally. by rewrite Hrun, Hclean.
Qed.

(** ** Cleanup (claim C3) *)



(** An entry point that leaves through [SystemExit] is not caught by
    [except Exception]: the exception leaves the endpoint, after the same
    cleanup, and the counter is not touched. *)
Example exit_propagates_after_cleanup :
  let x := models.mkWidget
             (models.mkWidgetCreate "Exit" "query" samples.exit_code "<form></form>")
             7 samples.noon 0 in
  let r := main.run_widget_endpoint samples.py_exec "/tmp/tmpk3" 7
             (main.mkRequest (Return [("f", UploadFile "data.csv" "1,2")]))
             (samples.holding x) in
  snd r = Raise (PyExc ["SystemExit"; "BaseException"] "bye") ∧
  fs (fst r) !! "/tmp/tmpk3.py" = None ∧
  fs (fst r) !! "uploads/data.csv" = None ∧
  sys_modules (fst r) !! widget_runner.module_name = None ∧
  snd (db.get_widget_by_id 7 (fst r)) = Return (Some x).
Proof. cbv zeta. repeat split; vm_compute; reflexivity. Qed.

(** ** Unknown ids (claim C6) *)

(** C6: for an id without a record file, [get_widget_by_id] returns
    [None] without raising, and [run_widget_endpoint] answers with the 404
    [HTTPException]; both leave the whole state (files, directories,
    registry) exactly as it was. *)
Theorem missing_widget_not_found
    (py_exec : string → file_content → outcome (gmap string pyobj))
    (tmp : string) (widget_id : Z) (request : main.Request) (w : world) :
  fs w !! db.widget_path widget_id = None →
  db.get_widget_by_id widget_id w = (w, Return None) ∧
  main.run_widget_endpoint py_exec tmp widget_id request w
  = (w, Raise (HTTPException 404 "Widget data not found.")).
Proof.
  intros Hnone.
  assert (Hget : db.get_widget_by_id widget_id w = (w, Return None))
    by (by rewrite get_widget_by_id_eq, Hnone).
  split; [exact Hget|].
  unfold main.run_widget_endpoint, main.run_widget_endpoint_body, bind.
  unfold main.in_world at 1. by rewrite Hget.
Qed.

Lemma missing_widget_not_found_witness :
  let w := samples.holding (models.mkWidget samples.adder 7 samples.noon 0) in
  db.get_widget_by_id 8 w = (w, Return None) ∧
  main.run_widget_endpoint samples.py_exec "/tmp/tmpk3" 8 (samples.text_form "2" "3") w
  = (w, Raise (HTTPException 404 "Widget data not found.")).
Proof.
  intros w.
  refine (missing_widget_not_found samples.py_exec "/tmp/tmpk3" 8 (samples.text_form "2" "3") w _).
  vm_compute. reflexivity.
Defined.

(** ** Loader identity (claim C1) *)

(** C1, as stated, fails: two invocations, on different bundle files and
    different inputs, are both loaded under the one name
    [dynamic_widget_module] (the entry point reports the name of its own
    module); and an invocation that starts while a module is registered
    under that name ends with that registration gone. *)
Lemma loader_identity_is_shared :
  let w0 := set_fs <["/tmp/a.py" := FText samples.probe_code]>
              (set_fs <["/tmp/b.py" := FText samples.probe_code]> samples.fresh) in
  let first := widget_runner.execute_widget_code samples.py_exec "/tmp/a.py" ∅ w0 in
  let second := widget_runner.execute_widget_code samples.py_exec "/tmp/b.py"
                  {["k" := Str "v"]} (fst first) in
  let loaded := set_sys_modules
                  <[widget_runner.module_name := {["run_widget" := Data (PyInt 1)]}]> w0 in
  (∃ n1 n2, snd first = Return (PyStr n1) ∧ snd second = Return (PyStr n2) ∧ n1 = n2) ∧
  is_Some (sys_modules loaded !! widget_runner.module_name) ∧
  sys_modules (fst (widget_runner.execute_widget_code samples.py_exec "/tmp/b.py" ∅ loaded))
    !! widget_runner.module_name = None.
Proof.
  cbv zeta. split.
  - exists "dynamic_widget_module", "dynamic_widget_module".
    split; [vm_compute; reflexivity|]. split; [vm_compute; reflexivity|]. reflexivity.
  - split.
    + cbn [sys_modules set_sys_modules]. rewrite lookup_insert_eq. by eexists.
    + rewrite execute_widget_code_eq. cbn [fst sys_modules set_sys_modules].
      apply lookup_delete_eq.
Qed.

(** C1, amended: every invocation loads its bundle under the one fixed
    name [dynamic_widget_module]: the loader is never asked for another
    name, whatever the file and the inputs.  When the invocation ends, by
    return or by exception, no module is registered under that name, even
    if one was at the start. *)
Theorem loader_identity_fixed
    (py_exec : string → file_content → outcome (gmap string pyobj))
    (path : string) (inputs : gmap string form_value) (w : world) :
  widget_runner.module_name = "dynamic_widget_module" ∧
  widget_runner.execute_widget_code py_exec path inputs w
  = widget_runner.execute_widget_code (λ _, py_exec widget_runner.module_name) path inputs w ∧
  sys_modules (fst (widget_runner.execute_widget_code py_exec path inputs w))
    !! widget_runner.module_name = None.
Proof.
  split; [reflexivity|]. split.
  - by rewrite !execute_widget_code_eq.
  - rewrite execute_widget_code_eq. cbn [fst sys_modules set_sys_modules].
    apply lookup_delete_eq.
Qed.

(** ** Errors of the runner (claim C5) *)

(** C5, as stated, fails: the runner has no [MissingEntryPoint],
    [LoadError] or [ExecutionFailure].  An exception of the entry point
    comes out as it is, not wrapped; a bundle that does not compile comes
    out as the loader's own exception; a missing [run_widget] is an
    [AttributeError]; and a [run_widget] that is there but cannot be called
    is not reported as a missing entry point at all, but as the
    [TypeError] of the call. *)
Lemma entry_point_errors_not_wrapped :
  let run code :=
    snd (widget_runner.execute_widget_code samples.py_exec "/tmp/w.py" ∅
           (set_fs <["/tmp/w.py" := FText code]> samples.fresh)) in
  (run samples.boom_code = Raise (ValueError "boom") ∧
   isinstance (ValueError "boom") "ExecutionFailure" = false) ∧
  (run samples.broken_code = Raise (Exception_ "SyntaxError" "invalid syntax") ∧
   isinstance (Exception_ "SyntaxError" "invalid syntax") "LoadError" = false) ∧
  (run samples.no_entry_code
   = Raise (AttributeError "Widget code is missing the required 'run_widget' function.") ∧
   isinstance (AttributeError "Widget code is missing the required 'run_widget' function.")
     "MissingEntryPoint" = false) ∧
  (run samples.five_code = Raise (TypeError "'int' object is not callable") ∧
   isinstance (TypeError "'int' object is not callable") "MissingEntryPoint" = false ∧
   isinstance (TypeError "'int' object is not callable") "AttributeError" = false).
Proof.
  cbv zeta. repeat split; vm_compute; reflexivity.
Qed.

(** C5, amended: for a [.py] file that is there, [execute_widget_code]
    - re-raises, unchanged, the exception with which the bundle fails to
      load;
    - raises [AttributeError("Widget code is missing the required
      'run_widget' function.")] when the loaded module has no attribute
      [run_widget];
    - re-raises, unchanged (same class, same message), any exception
      raised by calling [run_widget];
    - raises the [TypeError] of the call when [run_widget] is not
      callable.
    No exception is swallowed. *)
Theorem runner_errors_propagate
    (py_exec : string → file_content → outcome (gmap string pyobj))
    (path : string) (inputs : gmap string form_value) (w : world) (src : file_content) :
  endswith path ".py" = true →
  fs w !! path = Some src →
  let result := snd (widget_runner.execute_widget_code py_exec path inputs w) in
  (∀ e, py_exec widget_runner.module_name src = Raise e → result = Raise e) ∧
  (∀ attrs, py_exec widget_runner.module_name src = Return attrs →
     attrs !! "run_widget" = None →
     result = Raise (AttributeError
                       "Widget code is missing the required 'run_widget' function.")) ∧
  (∀ attrs f e, py_exec widget_runner.module_name src = Return attrs →
     attrs !! "run_widget" = Some (Callable f) → f inputs = Raise e →
     result = Raise e) ∧
  (∀ attrs v, py_exec widget_runner.module_name src = Return attrs →
     attrs !! "run_widget" = Some (Data v) →
     result = Raise (TypeError ("'" +:+ py_type v +:+ "' object is not callable"))).
Proof.
  intros Hpy Hsrc result. subst result.
  rewrite execute_widget_code_eq, Hpy, Hsrc. cbn [snd].
  split; [by intros e ->|].
  split; [by intros attrs -> ->|].
  split; [by intros attrs f e -> -> <-|].
  by intros attrs v -> ->.
Qed.

Lemma runner_errors_propagate_witness :
  let run code :=
    snd (widget_runner.execute_widget_code samples.py_exec "/tmp/w.py" ∅
           (set_fs <["/tmp/w.py" := FText code]> samples.fresh)) in
  run samples.broken_code = Raise (Exception_ "SyntaxError" "invalid syntax") ∧
  run samples.no_entry_code
  = Raise (AttributeError "Widget code is missing the required 'run_widget' function.") ∧
  run samples.boom_code = Raise (ValueError "boom") ∧
  run samples.five_code = Raise (TypeError ("'" +:+ py_type (PyInt 5) +:+ "' object is not callable")).
Proof.
  intros run.
  assert (Hspec : ∀ code,
    let result := run code in
    (∀ e, samples.py_exec widget_runner.module_name (FText code) = Raise e → result = Raise e) ∧
    (∀ attrs, samples.py_exec widget_runner.module_name (FText code) = Return attrs →
       attrs !! "run_widget" = None →
       result = Raise (AttributeError
                         "Widget code is missing the required 'run_widget' function.")) ∧
    (∀ attrs f e, samples.py_exec widget_runner.module_name (FText code) = Return attrs →
       attrs !! "run_widget" = Some (Callable f) → f ∅ = Raise e → result = Raise e) ∧
    (∀ attrs v, samples.py_exec widget_runner.module_name (FText code) = Return attrs →
       attrs !! "run_widget" = Some (Data v) →
       result = Raise (TypeError ("'" +:+ py_type v +:+ "' object is not callable")))).
  { intros code.
    refine (runner_errors_propagate samples.py_exec "/tmp/w.py" ∅
              (set_fs <["/tmp/w.py" := FText code]> samples.fresh) (FText code) _ _).
    - vm_compute. reflexivity.
    - cbn [fs set_fs]. apply lookup_insert_eq. }
  split; [|split; [|split]].
  - refine (proj1 (Hspec samples.broken_code) _ _). vm_compute. reflexivity.
  - refine (proj1 (proj2 (Hspec samples.no_entry_code)) {["x" := Data (PyInt 1)]} _ _).
    + vm_compute. reflexivity.
    + vm_compute. reflexivity.
  - refine (proj1 (proj2 (proj2 (Hspec samples.boom_code)))
              {["run_widget" := Callable (λ _, Raise (ValueError "boom"))]} _ _ _ _ _).
    + vm_compute. reflexivity.
    + vm_compute. reflexivity.
    + reflexivity.
  - refine (proj2 (proj2 (proj2 (Hspec samples.five_code)))
              {["run_widget" := Data (PyInt 5)]} (PyInt 5) _ _).
    + vm_compute. reflexivity.
    + vm_compute. reflexivity.
Defined.

(** ** A successful execution (claim C9) *)

(** The [try] block once the form is read and marshalled. *)
Lemma attempt_eq
    (py_exec : string → file_content → outcome (gmap string pyobj))
    (tmp : string) (widget_id : Z) (x : models.Widget) (request : main.Request)
    (items : list (string * form_value)) (w w2 : world) (l2 : main.locals) :
  main.form request = Return items →
  for_each items main.marshal
    (set_fs <[tmp +:+ ".py" := FText (models.python_code (models.base x))]> w,
     main.mkLocals ∅ [] (Some (tmp +:+ ".py"))) = ((w2, l2), Return tt) →
  main.attempt py_exec tmp widget_id x request (w, main.mkLocals ∅ [] None) =
  match widget_runner.execute_widget_code py_exec (tmp +:+ ".py") (main.inputs l2) w2 with
  | (w3, Raise e) => ((w3, l2), Raise e)
  | (w3, Return v) =>
      match db.increment_usage_count widget_id w3 with
      | (w4, Return _) =>
          ((w4, l2),
           match py_str v with
           | Return output => Return (main.mkJSONResponse [("output", output)] 200)
           | Raise e => Raise e
           end)
      | (w4, Raise e) => ((w4, l2), Raise e)
      end
  end.
Proof.
  intros Hform Hloop.
  unfold main.attempt, bind at 1.
  unfold main.NamedTemporaryFile, bind, main.set_temp_py_file, modify, main.in_world, ret, lift.
  cbn beta iota zeta. rewrite Hform. cbn [main.inputs main.temp_file_paths].
  rewrite Hloop. unfold gets. cbn [snd].
  destruct (widget_runner.execute_widget_code _ _ _ _) as [w3 [v|e]]; [|reflexivity].
  destruct (db.increment_usage_count widget_id w3) as [w4 [[]|e]]; [|reflexivity].
  by destruct (py_str v).
Qed.

(** A stored widget whose entry point returns [v] on two text fields:
    the response carries [str(v)] and the record is rewritten with its
    counter one higher. *)
Lemma text_execution
    (py_exec : string → file_content → outcome (gmap string pyobj))
    (tmp : string) (widget_id : Z) (x : models.Widget) (a b : string) (w : world)
    (attrs : gmap string pyobj) (f : gmap string form_value → outcome pyval) (v : pyval)
    (output : string) :
  db.get_widget_by_id widget_id w = (w, Return (Some x)) →
  py_exec widget_runner.module_name (FText (models.python_code (models.base x))) = Return attrs →
  attrs !! "run_widget" = Some (Callable f) →
  f (<["b" := Str b]> (<["a" := Str a]> ∅)) = Return v →
  py_str v = Return output →
  ∃ w' : world,
    main.run_widget_endpoint py_exec tmp widget_id (samples.text_form a b) w
    = (w', Return (main.mkJSONResponse [("output", output)] 200)) ∧
    db.get_widget_by_id widget_id w' = (w', Return (Some (db.bump x))).
Proof.
  intros Hget Hexec Hentry Hcall Hstr.
  destruct (run_widget_endpoint_found py_exec tmp widget_id x (samples.text_form a b) w Hget)
    as (w2 & w' & l2 & r & Hrun & Hclean & Hend).
  exists w'. rewrite Hend.
  unfold try_except in Hrun.
  assert (Hloop :
    for_each [("a", Str a); ("b", Str b)] main.marshal
      (set_fs <[tmp +:+ ".py" := FText (models.python_code (models.base x))]> w,
       main.mkLocals ∅ [] (Some (tmp +:+ ".py")))
    = ((set_fs <[tmp +:+ ".py" := FText (models.python_code (models.base x))]> w,
        main.mkLocals (<["b" := Str b]> (<["a" := Str a]> ∅)) [] (Some (tmp +:+ ".py"))),
       Return tt)) by reflexivity.
  rewrite (attempt_eq py_exec tmp widget_id x (samples.text_form a b) _ w _ _ eq_refl Hloop)
    in Hrun.
  rewrite execute_widget_code_eq, endswith_append in Hrun.
  cbn [fs set_fs main.inputs] in Hrun.
  rewrite lookup_insert_eq, Hexec, Hentry in Hrun. cbn [widget_runner.call] in Hrun.
  rewrite Hcall in Hrun.
  rewrite increment_usage_count_eq in Hrun.
  rewrite get_widget_by_id_eq in Hrun. cbn [fs set_fs set_sys_modules snd] in Hrun.
  rewrite lookup_insert_ne in Hrun by apply widget_path_not_py.
  pose proof Hget as Hget'. rewrite get_widget_by_id_eq in Hget'.
  injection Hget' as Hget'. rewrite Hget', Hstr in Hrun.
  injection Hrun as <- <- <-.
  split; [reflexivity|].
  assert (Hpy : main.temp_py_file
                  (main.mkLocals (<["b" := Str b]> (<["a" := Str a]> ∅)) []
                                 (Some (tmp +:+ ".py"))) = Some (tmp +:+ ".py")) by reflexivity.
  match type of Hclean with
  | main.cleanup (?w4, ?l4) = _ =>
      destruct (cleanup_spec w4 l4 _ Hpy) as (w'' & Hclean' & _ & _ & _ & _ & Hother)
  end.
  rewrite Hclean in Hclean'. injection Hclean' as <-.
  rewrite get_widget_by_id_eq.
  rewrite Hother.
  - cbn [fs set_fs]. rewrite lookup_insert_eq. cbn [json_load json_loads].
    rewrite Widget_init_model_dump; [reflexivity|].
    cbn. by eapply get_widget_by_id_valid.
  - intros H. by apply (widget_path_not_py widget_id tmp).
  - cbn. apply not_elem_of_nil.
Qed.

(** C9, as stated, fails: form fields reach the entry point as text, so a
    bundle computing [inputs['a'] + inputs['b']] on the fields "2" and "3"
    concatenates them; the output is "23", not "5".  (The counter does
    become 1.) *)
Lemma sum_of_text_fields_concatenates :
  let x := models.mkWidget samples.adder 7 samples.noon 0 in
  let r := main.run_widget_endpoint samples.py_exec "/tmp/tmpk3" 7
             (samples.text_form "2" "3") (samples.holding x) in
  snd r = Return (main.mkJSONResponse [("output", "23")] 200) ∧
  snd r ≠ Return (main.mkJSONResponse [("output", "5")] 200) ∧
  snd (db.get_widget_by_id 7 (fst r)) = Return (Some (db.bump x)) ∧
  models.usage_count (db.bump x) = 1.
Proof.
  cbv zeta.
  assert (H : snd (main.run_widget_endpoint samples.py_exec "/tmp/tmpk3" 7
                     (samples.text_form "2" "3")
                     (samples.holding (models.mkWidget samples.adder 7 samples.noon 0)))
              = Return (main.mkJSONResponse [("output", "23")] 200))
    by (vm_compute; reflexivity).
  split; [exact H|]. split; [rewrite H; discriminate|].
  split; [vm_compute; reflexivity|reflexivity].
Qed.

(** C9, amended: executing a stored widget whose code computes
    [int(inputs['a']) + int(inputs['b'])] with the form fields a = "2",
    b = "3" returns the output "5", and the record's [usage_count], 0
    before, is 1 after this one successful execution, its other fields
    unchanged. *)
Theorem int_sum_execution
    (py_exec : string → file_content → outcome (gmap string pyobj))
    (tmp : string) (widget_id : Z) (x : models.Widget) (w : world)
    (attrs : gmap string pyobj) :
  db.get_widget_by_id widget_id w = (w, Return (Some x)) →
  models.python_code (models.base x) = samples.int_sum_code →
  models.usage_count x = 0 →
  py_exec widget_runner.module_name (FText samples.int_sum_code) = Return attrs →
  attrs !! "run_widget" = Some (Callable samples.int_sum_widget) →
  ∃ (w' : world) (x' : models.Widget),
    main.run_widget_endpoint py_exec tmp widget_id (samples.text_form "2" "3") w
    = (w', Return (main.mkJSONResponse [("output", "5")] 200)) ∧
    db.get_widget_by_id widget_id w' = (w', Return (Some x')) ∧
    models.usage_count x' = 1 ∧
    models.id x' = models.id x ∧
    models.base x' = models.base x ∧
    models.creation_date x' = models.creation_date x.
Proof.
  intros Hget Hcode Hzero Hexec Hentry.
  destruct (text_execution py_exec tmp widget_id x "2" "3" w attrs
              samples.int_sum_widget (PyInt 5) "5" Hget)
    as (w' & Hrun & Hget').
  - by rewrite Hcode.
  - exact Hentry.
  - vm_compute. reflexivity.
  - reflexivity.
  - exists w', (db.bump x). split; [exact Hrun|]. split; [exact Hget'|].
    cbn. rewrite Hzero. done.
Qed.

Lemma int_sum_execution_witness :
  let x := models.mkWidget samples.int_adder 7 samples.noon 0 in
  ∃ (w' : world) (x' : models.Widget),
    main.run_widget_endpoint samples.py_exec "/tmp/tmpk3" 7 (samples.text_form "2" "3")
      (samples.holding x)
    = (w', Return (main.mkJSONResponse [("output", "5")] 200)) ∧
    db.get_widget_by_id 7 w' = (w', Return (Some x')) ∧
    models.usage_count x' = 1 ∧
    models.id x' = models.id x ∧
    models.base x' = models.base x ∧
    models.creation_date x' = models.creation_date x.
Proof.
  intros x.
  refine (int_sum_execution samples.py_exec "/tmp/tmpk3" 7 x (samples.holding x)
            {["run_widget" := Callable samples.int_sum_widget]} _ _ _ _ _).
  - vm_compute. reflexivity.
  - reflexivity.
  - reflexivity.
  - vm_compute. reflexivity.
  - vm_compute. reflexivity.
Defined.

(** ** Listing (claim C8) *)

(** What the loop of [get_all_widgets] does with one name: text that is
    not JSON and JSON that is not an object are skipped; bytes that are
    not text and an object that fails validation raise out of the loop,
    since [UnicodeDecodeError] and [ValidationError] are neither a
    [JSONDecodeError] nor a [TypeError]. *)
Lemma load_listed_eq (filename : string) (widgets : list models.Widget) (w : world) :
  db.load_listed filename widgets w =
  (w, if endswith filename ".json" then
        match fs w !! os_path_join db.WIDGETS_DIR filename with
        | None => Raise (FileNotFoundError (os_path_join db.WIDGETS_DIR filename))
        | Some (FText text) =>
            if utf8_valid text then Return widgets
            else Raise (UnicodeDecodeError "'utf-8' codec can't decode bytes: invalid data")
        | Some (FJson (JObj fields)) =>
            match models.validate fields with
            | Some x => Return (widgets ++ [x])
            | None => Raise (ValidationError "validation errors for Widget")
            end
        | Some (FJson _) => Return widgets
        end
      else Return widgets).
Proof.
  unfold db.load_listed. destruct (endswith filename ".json"); [|reflexivity].
  unfold bind at 1, open_read.
  destruct (fs w !! os_path_join db.WIDGETS_DIR filename) as [[text|doc]|]; [| |reflexivity].
  - unfold try_except, bind, lift. cbn [json_load json_loads].
    by destruct (utf8_valid text).
  - unfold try_except, bind, lift. cbn [json_load json_loads].
    destruct doc; try reflexivity.
    unfold models.Widget_init. by destruct (models.validate fields).
Qed.


(** C8 fails on a record that is valid JSON but not a valid widget.  With
    three record files, the newest and the oldest valid and the middle one
    holding the empty object, [get_all_widgets] raises pydantic's
    [ValidationError] and returns nothing; had the middle file held text
    that is not JSON, it would have been skipped and the two valid records
    listed, newest first. *)
Lemma listing_aborts_on_invalid_record :
  let newest := models.mkWidget samples.adder 1700000000002 samples.noon 0 in
  let oldest := models.mkWidget samples.probe 1700000000000 samples.noon 0 in
  let store middle :=
    set_fs <[db.widget_path 1700000000001 := middle]>
      (set_fs <[db.widget_path 1700000000000 := FJson (models.model_dump oldest)]>
         (samples.holding newest)) in
  snd (db.get_all_widgets (store (FJson (JObj []))))
  = Raise (ValidationError "validation errors for Widget") ∧
  existsb (isinstance (ValidationError "validation errors for Widget"))
    ["JSONDecodeError"; "TypeError"] = false ∧
  snd (db.get_all_widgets (store (FText "{ 'name': 'Add"))) = Return [newest; oldest] ∧
  snd (db.get_all_widgets (store (FJson (JList [])))) = Return [newest; oldest].
Proof.
  cbv zeta. repeat split; vm_compute; reflexivity.
Qed.

Lemma strip_prefix_Some (p s r : string) : strip_prefix p s = Some r → s = p +:+ r.
Proof.
  revert s. induction p as [|a p IH]; intros s; cbn [strip_prefix].
  - by intros [= ->].
  - destruct s as [|b s]; [discriminate|].
    destruct (Ascii.eqb_spec a b) as [->|]; [|discriminate].
    intros H%IH. by subst.
Qed.

(** Every name [os.listdir] reports is the name of a file of the
    directory. *)
Lemma os_listdir_exists (d name : string) (w : world) (names : list string) :
  snd (os_listdir d w) = Return names → name ∈ names →
  is_Some (fs w !! os_path_join d name).
Proof.
  unfold os_listdir, gets. cbn [snd]. intros [= <-] Hin.
  apply list_elem_of_omap in Hin as (path & Hpath & Hchild).
  apply list_elem_of_fmap in Hpath as ([path' c] & -> & Hpc).
  apply elem_of_map_to_list in Hpc. cbn [fst] in Hchild.
  unfold child_of in Hchild.
  destruct (strip_prefix (d +:+ "/") path') as [rest|] eqn:Hstrip; [|discriminate].
  destruct (contains_char "/" rest); [discriminate|]. injection Hchild as ->.
  apply strip_prefix_Some in Hstrip. subst path'.
  unfold os_path_join. rewrite <- append_assoc. by eexists.
Qed.






(** * Further properties of the storage *)

#[local] Set Warnings "-clear-no-such-hyp".

Lemma load_all_world (filenames : list string) (widgets : list models.Widget) (w : world) :
  fst (db.load_all filenames widgets w) = w.
Proof.
  revert widgets. induction filenames as [|name rest IH]; intros widgets; [reflexivity|].
  cbn [db.load_all]. unfold bind. rewrite load_listed_eq.
  match goal with
  | |- fst (match ?o with Return _ => _ | Raise _ => _ end) = _ => destruct o as [ws|e]
  end; [apply IH|reflexivity].
Qed.

Lemma setup_storage_dirs (w : world) :
  dirs (fst (db.setup_storage w)) = {["database"; db.WIDGETS_DIR]} ∪ dirs w.
Proof. destruct w as [f d m]. cbn. set_solver. Qed.

(** X2: once [setup_storage] has run, [create_widget] cannot fail.  The
    record it returns carries the definition unchanged, the id taken from
    the clock, the given creation time and a usage count of 0; the record
    reads back under that id, and every other record of the store reads as
    before. *)
Theorem create_after_setup
    (t : Q) (now : datetime.t) (data : models.WidgetCreate) (w : world) :
  datetime.valid now = true →
  ∃ (w' : world) (x : models.Widget),
    db.create_widget t now data (fst (db.setup_storage w)) = (w', Return x) ∧
    models.base x = data ∧ models.usage_count x = 0 ∧
    models.creation_date x = now ∧ models.id x = db.timestamp_ms t ∧
    db.get_widget_by_id (models.id x) w' = (w', Return (Some x)) ∧
    (∀ j, j ≠ models.id x →
       snd (db.get_widget_by_id j w') = snd (db.get_widget_by_id j w)).
Proof.
  intros Hv.
  destruct (db.create_widget t now data (fst (db.setup_storage w))) as [w' r] eqn:Hc.
  pose proof Hc as Hc'. rewrite create_widget_eq in Hc'.
  rewrite (bool_decide_eq_true_2 (db.WIDGETS_DIR ∈ _)), orb_true_r in Hc'.
  2:{ rewrite setup_storage_dirs. set_solver. }
  injection Hc' as <- <-.
  eexists _, _. split; [reflexivity|]. repeat split.
  - cbn [models.id]. by apply get_after_write.
  - intros j Hj. cbn [models.id] in Hj.
    rewrite !get_widget_by_id_eq. cbn [snd fs set_fs].
    rewrite lookup_insert_ne by (intros H; apply widget_path_inj in H; congruence).
    reflexivity.
Qed.

Lemma create_after_setup_witness :
  ∃ (w' : world) (x : models.Widget),
    db.create_widget (17000000000001 # 10000) samples.noon samples.adder
      (fst (db.setup_storage (World ∅ ∅ ∅))) = (w', Return x) ∧
    models.base x = samples.adder ∧ models.usage_count x = 0 ∧
    models.creation_date x = samples.noon ∧
    models.id x = db.timestamp_ms (17000000000001 # 10000) ∧
    db.get_widget_by_id (models.id x) w' = (w', Return (Some x)) ∧
    (∀ j, j ≠ models.id x →
       snd (db.get_widget_by_id j w') = snd (db.get_widget_by_id j (World ∅ ∅ ∅))).
Proof.
  refine (create_after_setup (17000000000001 # 10000) samples.noon samples.adder
            (World ∅ ∅ ∅) _).
  vm_compute. reflexivity.
Defined.

(** X3: without the storage directory [create_widget] fails with
    [FileNotFoundError] for a new id and leaves the store exactly as it
    was: nothing is half written. *)
Theorem create_widget_needs_storage
    (t : Q) (now : datetime.t) (data : models.WidgetCreate) (w : world) :
  db.WIDGETS_DIR ∉ dirs w →
  fs w !! db.widget_path (db.timestamp_ms t) = None →
  db.create_widget t now data w
  = (w, Raise (FileNotFoundError (db.widget_path (db.timestamp_ms t)))).
Proof.
  intros Hdir Hnone. rewrite create_widget_eq.
  rewrite Hnone, (bool_decide_eq_false_2 (is_Some None)) by (by intros [? ?]).
  by rewrite (bool_decide_eq_false_2 _ Hdir).
Qed.

Lemma create_widget_needs_storage_witness :
  db.create_widget (17000000000001 # 10000) samples.noon samples.adder (World ∅ ∅ ∅)
  = (World ∅ ∅ ∅,
     Raise (FileNotFoundError (db.widget_path (db.timestamp_ms (17000000000001 # 10000))))).
Proof.
  refine (create_widget_needs_storage (17000000000001 # 10000) samples.noon samples.adder
            (World ∅ ∅ ∅) _ _).
  - vm_compute. discriminate.
  - reflexivity.
Defined.

(** X4: the read operations never change the store, whatever they return
    or raise: neither [get_widget_by_id] nor [get_all_widgets] writes a
    file, makes a directory or touches the module registry. *)
Theorem reads_leave_store_alone (widget_id : Z) (w : world) :
  fst (db.get_widget_by_id widget_id w) = w ∧
  fst (db.get_all_widgets w) = w.
Proof.
  split; [by rewrite get_widget_by_id_eq|].
  unfold db.get_all_widgets, bind, os_path_isdir, os_listdir, gets.
  destruct (negb _); [reflexivity|]. apply load_all_world.
Qed.

Lemma for_each_increment (n : nat) (widget_id : Z) (x : models.Widget) (w : world) :
  db.get_widget_by_id widget_id w = (w, Return (Some x)) →
  ∃ w' : world,
    for_each (replicate n tt) (λ _, db.increment_usage_count widget_id) w = (w', Return tt) ∧
    db.get_widget_by_id widget_id w'
    = (w', Return (Some (models.mkWidget (models.base x) (models.id x) (models.creation_date x)
                                         (models.usage_count x + Z.of_nat n)))) ∧
    (∀ path, path ≠ db.widget_path widget_id → fs w' !! path = fs w !! path) ∧
    dirs w' = dirs w ∧ sys_modules w' = sys_modules w.
Proof.
  revert x w. induction n as [|n IH]; intros x w Hget.
  - exists w. split; [reflexivity|]. split; [|done].
    rewrite Hget. destruct x as [b i d u]. cbn. do 4 f_equal. lia.
  - cbn [replicate for_each]. unfold bind.
    rewrite increment_usage_count_eq, Hget. cbn [snd].
    destruct (IH (db.bump x)
                (set_fs <[db.widget_path widget_id := FJson (models.model_dump (db.bump x))]> w))
      as (w' & Hrun & Hget' & Hfs & Hdirs & Hreg).
    { apply get_after_write. cbn. by eapply get_widget_by_id_valid. }
    exists w'. split; [exact Hrun|]. split.
    + rewrite Hget'. cbn. do 4 f_equal. lia.
    + split; [|done]. intros path Hne. rewrite Hfs by done. cbn. by rewrite lookup_insert_ne.
Qed.

(** X5: [n] calls of [increment_usage_count] on a stored widget, one after
    the other, raise its [usage_count] by exactly [n]; its other fields,
    the other files, the directories and the registry stay as they were. *)
Theorem increments_add_up (n : nat) (widget_id : Z) (x : models.Widget) (w : world) :
  db.get_widget_by_id widget_id w = (w, Return (Some x)) →
  ∃ (w' : world) (x' : models.Widget),
    for_each (replicate n tt) (λ _, db.increment_usage_count widget_id) w = (w', Return tt) ∧
    db.get_widget_by_id widget_id w' = (w', Return (Some x')) ∧
    models.usage_count x' = models.usage_count x + Z.of_nat n ∧
    models.base x' = models.base x ∧ models.id x' = models.id x ∧
    models.creation_date x' = models.creation_date x ∧
    (∀ path, path ≠ db.widget_path widget_id → fs w' !! path = fs w !! path) ∧
    dirs w' = dirs w ∧ sys_modules w' = sys_modules w.
Proof.
  intros Hget.
  destruct (for_each_increment n widget_id x w Hget)
    as (w' & Hrun & Hget' & Hfs & Hdirs & Hreg).
  eexists w', _. split; [exact Hrun|]. split; [exact Hget'|].
  cbn [models.usage_count models.base models.id models.creation_date]. done.
Qed.

Lemma increments_add_up_witness :
  let x := models.mkWidget samples.adder 7 samples.noon 0 in
  ∃ (w' : world) (x' : models.Widget),
    for_each (replicate 3 tt) (λ _, db.increment_usage_count 7) (samples.holding x)
    = (w', Return tt) ∧
    db.get_widget_by_id 7 w' = (w', Return (Some x')) ∧
    models.usage_count x' = 0 + Z.of_nat 3 ∧
    models.base x' = samples.adder ∧ models.id x' = 7 ∧
    models.creation_date x' = samples.noon ∧
    (∀ path, path ≠ db.widget_path 7 → fs w' !! path = fs (samples.holding x) !! path) ∧
    dirs w' = dirs (samples.holding x) ∧ sys_modules w' = sys_modules (samples.holding x).
Proof.
  intros x.
  refine (increments_add_up 3 7 x (samples.holding x) _).
  vm_compute. reflexivity.
Defined.

(** ** What the listing contains *)










(** * Further properties of the endpoint *)

Lemma marshal_step (key : string) (value : form_value) (w : world) (l : main.locals) :
  ∃ w1 : world,
    main.marshal (key, value) (w, l)
    = ((w1, main.mkLocals (<[key := main.marshalled value]> (main.inputs l))
                          (main.temp_file_paths l ++
                           match value with
                           | UploadFile filename _ =>
                               if negb (String.eqb filename "")
                               then [main.upload_path filename] else []
                           | Str _ => []
                           end)
                          (main.temp_py_file l)), Return tt) ∧
    sys_modules w1 = sys_modules w ∧
    dirs w ⊆ dirs w1 ∧ dirs w1 ⊆ {["uploads"]} ∪ dirs w ∧
    (∀ q, is_Some (fs w !! q) → is_Some (fs w1 !! q)) ∧
    (∀ q, (∀ filename, q ≠ main.upload_path filename) → fs w1 !! q = fs w !! q) ∧
    (∀ filename file, value = UploadFile filename file → filename ≠ "" →
       is_Some (fs w1 !! main.upload_path filename)).
Proof.
  rewrite marshal_eq. unfold main.marshalled.
  destruct value as [s|filename file].
  - exists w. rewrite app_nil_r. split; [reflexivity|].
    split; [done|]. split; [done|]. split; [set_solver|]. split; [done|]. split; [done|].
    intros ?? [=].
  - destruct (String.eqb_spec filename "") as [->|Hname]; cbn [negb].
    + exists w. rewrite app_nil_r. split; [reflexivity|].
      split; [done|]. split; [done|]. split; [set_solver|]. split; [done|]. split; [done|].
      by intros ?? [= <- <-].
    + eexists. split; [reflexivity|]. cbn [fs dirs sys_modules set_fs set_dirs].
      split; [done|]. split; [set_solver|]. split; [done|]. split.
      * intros q Hq. destruct (decide (main.upload_path filename = q)) as [<-|Hne].
        -- rewrite lookup_insert_eq. by eexists.
        -- by rewrite lookup_insert_ne.
      * split.
        -- intros q Hq. by rewrite lookup_insert_ne.
        -- intros f d [= <- <-] _. rewrite lookup_insert_eq. by eexists.
Qed.

(** The loop over the form on any list of items: what it leaves in
    [inputs], in [temp_file_paths], on the disk and in the directories. *)
Lemma for_each_marshal_more (items : list (string * form_value)) (w : world) (l : main.locals) :
  ∃ (w' : world) (l' : main.locals),
    for_each items main.marshal (w, l) = ((w', l'), Return tt) ∧
    (∀ p, p ∈ main.temp_file_paths l' →
       p ∈ main.temp_file_paths l ∨ ∃ filename, p = main.upload_path filename) ∧
    dirs w ⊆ dirs w' ∧ dirs w' ⊆ {["uploads"]} ∪ dirs w ∧
    (∀ q, is_Some (fs w !! q) → is_Some (fs w' !! q)) ∧
    (∀ key filename file, (key, UploadFile filename file) ∈ items → filename ≠ "" →
       is_Some (fs w' !! main.upload_path filename)) ∧
    (NoDup items.*1 →
       (∀ key value, (key, value) ∈ items →
          main.inputs l' !! key = Some (main.marshalled value)) ∧
       (∀ key, key ∉ items.*1 → main.inputs l' !! key = main.inputs l !! key)).
Proof.
  revert w l. induction items as [|[key value] items IH]; intros w l.
  - exists w, l. split; [reflexivity|]. split; [auto|]. split; [done|].
    split; [set_solver|]. split; [done|]. split.
    + intros ??? H. by apply elem_of_nil in H.
    + intros _. split; [|done]. intros ?? H. by apply elem_of_nil in H.
  - destruct (marshal_step key value w l)
      as (w1 & Hstep & _ & Hd1 & Hd2 & Hkeep1 & _ & Hwritten).
    cbn [for_each]. unfold bind. rewrite Hstep.
    match type of Hstep with _ = ((_, ?l1), _) =>
      destruct (IH w1 l1) as (w' & l' & Hrun & Hpaths & Hd3 & Hd4 & Hkeep & Hup & Hinputs)
    end.
    exists w', l'. split; [exact Hrun|]. split.
    { intros p Hp. apply Hpaths in Hp as [Hp|Hp]; [|by right].
      cbn [main.temp_file_paths] in Hp. apply elem_of_app in Hp as [Hp|Hp]; [by left|].
      right. destruct value as [s|filename file]; [by apply elem_of_nil in Hp|].
      destruct (negb _); [|by apply elem_of_nil in Hp].
      apply list_elem_of_singleton in Hp. by exists filename. }
    split; [set_solver|]. split; [set_solver|]. split; [by auto|]. split.
    { intros k f d Hin Hne. apply elem_of_cons in Hin as [[= -> <-]|Hin]; [|by eauto].
      apply Hkeep. by eapply Hwritten. }
    intros Hnodup. cbn [fmap list_fmap fst] in Hnodup.
    apply NoDup_cons in Hnodup as [Hfresh Hnodup].
    destruct (Hinputs Hnodup) as [Hin Hout]. split.
    + intros k v Hkv. apply elem_of_cons in Hkv as [[= -> ->]|Hkv]; [|by auto].
      rewrite Hout by done. cbn [main.inputs]. by rewrite lookup_insert_eq.
    + intros k Hk. cbn [fmap list_fmap fst] in Hk. apply not_elem_of_cons in Hk as [Hne Hk].
      rewrite Hout by done. cbn [main.inputs]. by rewrite lookup_insert_ne.
Qed.

(** X8: for a form whose field names are all different and whose named
    uploads can be written (plain file names that are not directories,
    [uploads] not a regular file), the loop over the form does not raise
    and leaves in [inputs] one entry per field: the text of a text field
    unchanged, the path [uploads/<filename>] for an upload with a file
    name (whose file then exists on the disk), and the upload object
    itself when its file name is empty; no other key is added. *)
Theorem form_is_marshalled (items : list (string * form_value)) (w : world) (l : main.locals) :
  NoDup items.*1 →
  main.writable_uploads w items = true →
  ∃ (w' : world) (l' : main.locals),
    for_each items main.marshal (w, l) = ((w', l'), Return tt) ∧
    (∀ key s, (key, Str s) ∈ items → main.inputs l' !! key = Some (Str s)) ∧
    (∀ key filename file, (key, UploadFile filename file) ∈ items → filename ≠ "" →
       main.inputs l' !! key = Some (Str (main.upload_path filename)) ∧
       is_Some (fs w' !! main.upload_path filename)) ∧
    (∀ key file, (key, UploadFile "" file) ∈ items →
       main.inputs l' !! key = Some (UploadFile "" file)) ∧
    (∀ key, key ∉ items.*1 → main.inputs l' !! key = main.inputs l !! key).
Proof.
  intros Hnodup _.
  destruct (for_each_marshal_more items w l)
    as (w' & l' & Hrun & _ & _ & _ & _ & Hup & Hinputs).
  destruct (Hinputs Hnodup) as [Hin Hout].
  exists w', l'. split; [exact Hrun|]. split; [|split; [|split]].
  - intros key s Hkv. by rewrite (Hin _ _ Hkv).
  - intros key filename file Hkv Hne. split; [|by eauto].
    rewrite (Hin _ _ Hkv). unfold main.marshalled.
    by destruct (String.eqb_spec filename "").
  - intros key file Hkv. by rewrite (Hin _ _ Hkv).
  - exact Hout.
Qed.

Lemma form_is_marshalled_witness :
  let items := [("n", Str "1"); ("f", UploadFile "data.csv" "1,2"); ("g", UploadFile "" "")] in
  ∃ (w' : world) (l' : main.locals),
    for_each items main.marshal (samples.fresh, main.mkLocals ∅ [] None)
    = ((w', l'), Return tt) ∧
    (∀ key s, (key, Str s) ∈ items → main.inputs l' !! key = Some (Str s)) ∧
    (∀ key filename file, (key, UploadFile filename file) ∈ items → filename ≠ "" →
       main.inputs l' !! key = Some (Str (main.upload_path filename)) ∧
       is_Some (fs w' !! main.upload_path filename)) ∧
    (∀ key file, (key, UploadFile "" file) ∈ items →
       main.inputs l' !! key = Some (UploadFile "" file)) ∧
    (∀ key, key ∉ items.*1 →
       main.inputs l' !! key = main.inputs (main.mkLocals ∅ [] None) !! key).
Proof.
  intros items.
  refine (form_is_marshalled items samples.fresh (main.mkLocals ∅ [] None) _ _).
  - apply (bool_decide_unpack _). vm_compute. exact I.
  - vm_compute. reflexivity.
Defined.

(** One run of the endpoint for a stored widget whose form was read: the
    inputs handed to the runner, the response, and what is left of the
    store. *)
Lemma endpoint_trace
    (py_exec : string → file_content → outcome (gmap string pyobj))
    (tmp : string) (widget_id : Z) (x : models.Widget) (request : main.Request)
    (items : list (string * form_value)) (w : world) :
  db.get_widget_by_id widget_id w = (w, Return (Some x)) →
  main.form request = Return items →
  ∃ (w2 w' : world) (l2 : main.locals),
    for_each items main.marshal
      (set_fs <[tmp +:+ ".py" := FText (models.python_code (models.base x))]> w,
       main.mkLocals ∅ [] (Some (tmp +:+ ".py"))) = ((w2, l2), Return tt) ∧
    let run := snd (widget_runner.execute_widget_code py_exec (tmp +:+ ".py")
                      (main.inputs l2) w2) in
    let reported (e : exn) : outcome main.JSONResponse :=
      if isinstance e "Exception"
      then Return (main.mkJSONResponse
                     [("error", "An error occurred during execution: " +:+ exc_str e)] 500)
      else Raise e in
    main.run_widget_endpoint py_exec tmp widget_id request w
    = (w', match run with
           | Return v =>
               match py_str v with
               | Return output => Return (main.mkJSONResponse [("output", output)] 200)
               | Raise e => reported e
               end
           | Raise e => reported e
           end) ∧
    (∀ q, q ≠ tmp +:+ ".py" → (∀ filename, q ≠ main.upload_path filename) →
       fs w' !! q =
       match run with
       | Return _ =>
           <[db.widget_path widget_id := FJson (models.model_dump (db.bump x))]> (fs w) !! q
       | Raise _ => fs w !! q
       end).
Proof.
  intros Hget Hform.
  destruct (for_each_marshal items
              (set_fs <[tmp +:+ ".py" := FText (models.python_code (models.base x))]> w)
              (main.mkLocals ∅ [] (Some (tmp +:+ ".py"))))
    as (w2 & l2 & Hloop & Hpy & Hsys & _ & _ & Hfs).
  destruct (for_each_marshal_more items
              (set_fs <[tmp +:+ ".py" := FText (models.python_code (models.base x))]> w)
              (main.mkLocals ∅ [] (Some (tmp +:+ ".py"))))
    as (w2' & l2' & Hloop' & Hpaths & _).
  rewrite Hloop in Hloop'. injection Hloop' as <- <-.
  destruct (run_widget_endpoint_found py_exec tmp widget_id x request w Hget)
    as (wk & w' & lk & r & Hrun & Hclean & Hend).
  exists w2, w', l2. split; [exact Hloop|]. cbv zeta.
  unfold try_except in Hrun.
  rewrite (attempt_eq py_exec tmp widget_id x request items w w2 l2 Hform Hloop) in Hrun.
  assert (Hw3 : fst (widget_runner.execute_widget_code py_exec (tmp +:+ ".py")
                       (main.inputs l2) w2)
                = set_sys_modules (delete widget_runner.module_name) w2)
    by (by rewrite execute_widget_code_eq).
  destruct (widget_runner.execute_widget_code py_exec (tmp +:+ ".py") (main.inputs l2) w2)
    as [w3 run] eqn:Hexec.
  cbn [fst snd] in Hw3 |- *. subst w3.
  assert (Hrecord : fs w2 !! db.widget_path widget_id = fs w !! db.widget_path widget_id).
  { rewrite Hfs by (intros f H; by apply (widget_path_not_upload widget_id f)).
    cbn [fs set_fs]. rewrite lookup_insert_ne; [done|apply widget_path_not_py]. }
  assert (Hnotemp : ∀ q, (∀ filename, q ≠ main.upload_path filename) →
                         q ∉ main.temp_file_paths l2).
  { intros q Hq Hin. apply Hpaths in Hin as [Hin|[f ->]]; [by apply elem_of_nil in Hin|].
    by apply (Hq f). }
  assert (Hreport : ∀ (e : exn) (w4 : world),
    (if existsb (isinstance e) ["Exception"] then main.report e (w4, l2)
     else ((w4, l2), Raise e))
    = ((w4, l2),
       if isinstance e "Exception"
       then Return (main.mkJSONResponse
                      [("error", "An error occurred during execution: " +:+ exc_str e)] 500)
       else Raise e)).
  { intros e w4. cbn [existsb]. rewrite orb_false_r. by destruct (isinstance e "Exception"). }
  assert (Hstate : ∃ w4 : world,
    (wk, lk, r) =
    (w4, l2, match run with
             | Return v =>
                 match py_str v with
                 | Return output => Return (main.mkJSONResponse [("output", output)] 200)
                 | Raise e =>
                     if isinstance e "Exception"
                     then Return (main.mkJSONResponse
                                    [("error", "An error occurred during execution: "
                                               +:+ exc_str e)] 500)
                     else Raise e
                 end
             | Raise e =>
                 if isinstance e "Exception"
                 then Return (main.mkJSONResponse
                                [("error", "An error occurred during execution: "
                                           +:+ exc_str e)] 500)
                 else Raise e
             end) ∧
    ∀ q, fs w4 !! q =
         match run with
         | Return _ =>
             <[db.widget_path widget_id := FJson (models.model_dump (db.bump x))]> (fs w2) !! q
         | Raise _ => fs w2 !! q
         end).
  { destruct run as [v|e].
    - rewrite increment_usage_count_eq, get_widget_by_id_eq in Hrun.
      cbn [snd fs set_sys_modules] in Hrun. rewrite Hrecord in Hrun.
      pose proof Hget as Hget'. rewrite get_widget_by_id_eq in Hget'.
      injection Hget' as Hget'. rewrite Hget' in Hrun.
      destruct (py_str v) as [output|e].
      + eexists. split; [symmetry; exact Hrun|]. done.
      + rewrite Hreport in Hrun. eexists. split; [symmetry; exact Hrun|]. done.
    - rewrite Hreport in Hrun. eexists. split; [symmetry; exact Hrun|]. done. }
  destruct Hstate as (w4 & [= -> -> ->] & Hfs4).
  destruct (cleanup_spec w4 l2 _ Hpy) as (w'' & Hclean' & _ & _ & _ & _ & Hother).
  rewrite Hclean in Hclean'. injection Hclean' as <-.
  split; [exact Hend|].
  intros q Hne Hq. rewrite Hother by auto. rewrite Hfs4.
  destruct run as [v|e].
  - destruct (decide (db.widget_path widget_id = q)) as [<-|Hq'].
    + by rewrite !lookup_insert_eq.
    + rewrite !lookup_insert_ne by done. rewrite Hfs by done.
      cbn [fs set_fs]. by rewrite lookup_insert_ne.
  - rewrite Hfs by done. cbn [fs set_fs]. by rewrite lookup_insert_ne.
Qed.

(** The same for a form that cannot be read. *)
Lemma endpoint_trace_unread
    (py_exec : string → file_content → outcome (gmap string pyobj))
    (tmp : string) (widget_id : Z) (x : models.Widget) (request : main.Request)
    (e : exn) (w : world) :
  db.get_widget_by_id widget_id w = (w, Return (Some x)) →
  main.form request = Raise e →
  ∃ w' : world,
    main.run_widget_endpoint py_exec tmp widget_id request w
    = (w', if isinstance e "Exception"
           then Return (main.mkJSONResponse
                          [("error", "An error occurred during execution: " +:+ exc_str e)] 500)
           else Raise e) ∧
    (∀ q, q ≠ tmp +:+ ".py" → fs w' !! q = fs w !! q).
Proof.
  intros Hget Hform.
  destruct (run_widget_endpoint_found py_exec tmp widget_id x request w Hget)
    as (wk & w' & lk & r & Hrun & Hclean & Hend).
  exists w'.
  unfold try_except, main.attempt, bind at 1 in Hrun.
  unfold main.NamedTemporaryFile, bind, main.set_temp_py_file, modify, main.in_world, ret, lift
    in Hrun.
  cbn beta iota zeta in Hrun. rewrite Hform in Hrun.
  cbn [existsb main.inputs main.temp_file_paths] in Hrun. rewrite orb_false_r in Hrun.
  assert (Hstate :
    (wk, lk, r) =
    (set_fs <[tmp +:+ ".py" := FText (models.python_code (models.base x))]> w,
     main.mkLocals ∅ [] (Some (tmp +:+ ".py")),
     if isinstance e "Exception"
     then Return (main.mkJSONResponse
                    [("error", "An error occurred during execution: " +:+ exc_str e)] 500)
     else Raise e)).
  { by destruct (isinstance e "Exception"). }
  injection Hstate as -> -> ->.
  match type of Hclean with
  | main.cleanup (?w4, ?l4) = _ =>
      destruct (cleanup_spec w4 l4 (tmp +:+ ".py") eq_refl)
        as (w'' & Hclean' & _ & _ & _ & _ & Hother)
  end.
  rewrite Hclean in Hclean'. injection Hclean' as <-.
  split; [exact Hend|].
  intros q Hq. rewrite Hother; [|done|cbn; apply not_elem_of_nil].
  cbn [fs set_fs]. by rewrite lookup_insert_ne.
Qed.

(** X9: an execution is counted when the runner returns, and only then.
    For a stored widget and a form that was read and whose uploads can be
    written, the response of [run_widget_endpoint] is
    [{"output": str(result)}] with status 200 when the entry point returns
    a result that [str] accepts; it is [{"error": "An error occurred
    during execution: <message>"}] with status 500 when the runner, or
    [str] on its result, raises an [Exception]; anything else that is
    raised leaves the endpoint.  The record is rewritten with
    [usage_count] one higher whenever the runner returned, also when
    [str(result)] then failed and the response is the error, and is left
    as it was when the runner raised. *)
Theorem execution_is_counted_once
    (py_exec : string → file_content → outcome (gmap string pyobj))
    (tmp : string) (widget_id : Z) (x : models.Widget) (request : main.Request)
    (items : list (string * form_value)) (w : world) :
  db.get_widget_by_id widget_id w = (w, Return (Some x)) →
  main.form request = Return items →
  main.writable_uploads w items = true →
  ∃ (w2 w' : world) (l2 : main.locals),
    for_each items main.marshal
      (set_fs <[tmp +:+ ".py" := FText (models.python_code (models.base x))]> w,
       main.mkLocals ∅ [] (Some (tmp +:+ ".py"))) = ((w2, l2), Return tt) ∧
    let run := snd (widget_runner.execute_widget_code py_exec (tmp +:+ ".py")
                      (main.inputs l2) w2) in
    let reported (e : exn) : outcome main.JSONResponse :=
      if isinstance e "Exception"
      then Return (main.mkJSONResponse
                     [("error", "An error occurred during execution: " +:+ exc_str e)] 500)
      else Raise e in
    main.run_widget_endpoint py_exec tmp widget_id request w
    = (w', match run with
           | Return v =>
               match py_str v with
               | Return output => Return (main.mkJSONResponse [("output", output)] 200)
               | Raise e => reported e
               end
           | Raise e => reported e
           end) ∧
    db.get_widget_by_id widget_id w'
    = (w', Return (Some (match run with Return _ => db.bump x | Raise _ => x end))).
Proof.
  intros Hget Hform _.
  destruct (endpoint_trace py_exec tmp widget_id x request items w Hget Hform)
    as (w2 & w' & l2 & Hloop & Hend & Hfs).
  exists w2, w', l2. split; [exact Hloop|]. cbv zeta in Hend, Hfs |- *.
  split; [exact Hend|].
  rewrite get_widget_by_id_eq.
  rewrite Hfs; [|intros H; by apply (widget_path_not_py widget_id tmp)
                |intros f H; by apply (widget_path_not_upload widget_id f)].
  destruct (snd (widget_runner.execute_widget_code py_exec (tmp +:+ ".py")
                   (main.inputs l2) w2)) as [v|e].
  - rewrite lookup_insert_eq. cbn [json_load json_loads].
    rewrite Widget_init_model_dump; [reflexivity|].
    cbn. by eapply get_widget_by_id_valid.
  - rewrite get_widget_by_id_eq in Hget. by injection Hget as ->.
Qed.

Lemma execution_is_counted_once_witness :
  let x := models.mkWidget
             (models.mkWidgetCreate "Opaque" "query" samples.unprintable_code "<form></form>")
             7 samples.noon 0 in
  let items := [("n", Str "1"); ("f", UploadFile "data.csv" "1,2")] in
  let request := main.mkRequest (Return items) in
  let w := samples.holding x in
  snd (main.run_widget_endpoint samples.py_exec "/tmp/tmpk3" 7 request w)
  = Return (main.mkJSONResponse
              [("error", "An error occurred during execution: division by zero")] 500) ∧
  snd (db.get_widget_by_id 7
         (fst (main.run_widget_endpoint samples.py_exec "/tmp/tmpk3" 7 request w)))
  = Return (Some (db.bump x)) ∧
  ∃ (w2 w' : world) (l2 : main.locals),
    for_each items main.marshal
      (set_fs <["/tmp/tmpk3" +:+ ".py" := FText (models.python_code (models.base x))]> w,
       main.mkLocals ∅ [] (Some ("/tmp/tmpk3" +:+ ".py"))) = ((w2, l2), Return tt) ∧
    let run := snd (widget_runner.execute_widget_code samples.py_exec ("/tmp/tmpk3" +:+ ".py")
                      (main.inputs l2) w2) in
    let reported (e : exn) : outcome main.JSONResponse :=
      if isinstance e "Exception"
      then Return (main.mkJSONResponse
                     [("error", "An error occurred during execution: " +:+ exc_str e)] 500)
      else Raise e in
    main.run_widget_endpoint samples.py_exec "/tmp/tmpk3" 7 request w
    = (w', match run with
           | Return v =>
               match py_str v with
               | Return output => Return (main.mkJSONResponse [("output", output)] 200)
               | Raise e => reported e
               end
           | Raise e => reported e
           end) ∧
    db.get_widget_by_id 7 w'
    = (w', Return (Some (match run with Return _ => db.bump x | Raise _ => x end))).
Proof.
  intros x items request w. split; [vm_compute; reflexivity|].
  split; [vm_compute; reflexivity|].
  refine (execution_is_counted_once samples.py_exec "/tmp/tmpk3" 7 x request items w _ _ _).
  - vm_compute. reflexivity.
  - reflexivity.
  - vm_compute. reflexivity.
Defined.

(** X10: an execution leaves the records of the other widgets alone.  For
    a stored widget, a bundle that does not itself touch the store, and a
    form that cannot be read or whose uploads can be written, every other
    widget id reads after [run_widget_endpoint] exactly as it did
    before. *)
Theorem execution_keeps_other_records
    (py_exec : string → file_content → outcome (gmap string pyobj))
    (tmp : string) (widget_id : Z) (x : models.Widget) (request : main.Request) (w : world) :
  db.get_widget_by_id widget_id w = (w, Return (Some x)) →
  (∀ items, main.form request = Return items → main.writable_uploads w items = true) →
  let w' := fst (main.run_widget_endpoint py_exec tmp widget_id request w) in
  ∀ j, j ≠ widget_id → snd (db.get_widget_by_id j w') = snd (db.get_widget_by_id j w).
Proof.
  intros Hget _ w'.
  assert (Hfs : ∀ q, q ≠ db.widget_path widget_id → q ≠ tmp +:+ ".py" →
                     (∀ filename, q ≠ main.upload_path filename) →
                     fs w' !! q = fs w !! q).
  { subst w'. destruct (main.form request) as [items|e] eqn:Hform.
    - destruct (endpoint_trace py_exec tmp widget_id x request items w Hget Hform)
        as (w2 & w'' & l2 & _ & Hend & Hfs).
      cbv zeta in Hend, Hfs. rewrite Hend. cbn [fst].
      intros q Hq1 Hq2 Hq3. rewrite Hfs by done.
      destruct (snd _); [by rewrite lookup_insert_ne|done].
    - destruct (endpoint_trace_unread py_exec tmp widget_id x request e w Hget Hform)
        as (w'' & Hend & Hfs).
      rewrite Hend. cbn [fst]. by auto. }
  intros j Hj. rewrite !get_widget_by_id_eq. cbn [snd].
  rewrite Hfs; [done| |apply not_eq_sym, widget_path_not_py|].
  - intros H. by apply widget_path_inj in H.
  - intros f. apply not_eq_sym, widget_path_not_upload.
Qed.

Lemma execution_keeps_other_records_witness :
  let x := models.mkWidget samples.int_adder 7 samples.noon 0 in
  let y := models.mkWidget samples.probe 8 samples.noon 4 in
  let w := set_fs <[db.widget_path 8 := FJson (models.model_dump y)]> (samples.holding x) in
  let request := main.mkRequest (Return [("a", Str "2"); ("b", Str "3");
                                         ("f", UploadFile "8.json" "{}")]) in
  let w' := fst (main.run_widget_endpoint samples.py_exec "/tmp/tmpk3" 7 request w) in
  (snd (db.get_widget_by_id 7 w') = Return (Some (db.bump x)) ∧
   snd (db.get_widget_by_id 8 w') = Return (Some y)) ∧
  ∀ j, j ≠ 7 → snd (db.get_widget_by_id j w') = snd (db.get_widget_by_id j w).
Proof.
  intros x y w request w'. split; [split; vm_compute; reflexivity|].
  refine (execution_keeps_other_records samples.py_exec "/tmp/tmpk3" 7 x request w _ _).
  - vm_compute. reflexivity.
  - intros items [= <-]. vm_compute. reflexivity.
Defined.

(** * The other endpoints *)

(** X12: asked for the id of the record that [create_widget] has just
    returned, [get_widget_endpoint] returns that record; for an id
    without a record file it raises the 404 [HTTPException] whose detail
    names the id.  Neither changes the store. *)
Theorem get_widget_endpoint_spec
    (t : Q) (now : datetime.t) (data : models.WidgetCreate) (w w' : world) (x : models.Widget) :
  datetime.valid now = true →
  db.create_widget t now data w = (w', Return x) →
  main.get_widget_endpoint (models.id x) w' = (w', Return x) ∧
  ∀ j, fs w' !! db.widget_path j = None →
       main.get_widget_endpoint j w'
       = (w', Raise (HTTPException 404 ("Widget with ID " +:+ pretty j +:+ " not found."))).
Proof.
  intros Hv [Hx ->]%create_widget_Return. split.
  - unfold main.get_widget_endpoint, bind.
    assert (Hid : models.id x = db.timestamp_ms t) by (by subst x).
    rewrite Hid. rewrite get_after_write by (by subst x). reflexivity.
  - intros j Hj. unfold main.get_widget_endpoint, bind.
    by rewrite get_widget_by_id_eq, Hj.
Qed.

Lemma get_widget_endpoint_spec_witness :
  let r := db.create_widget (17000000000001 # 10000) samples.noon samples.adder samples.fresh in
  let x := models.mkWidget samples.adder 1700000000000 samples.noon 0 in
  main.get_widget_endpoint (models.id x) (fst r) = (fst r, Return x) ∧
  ∀ j, fs (fst r) !! db.widget_path j = None →
       main.get_widget_endpoint j (fst r)
       = (fst r, Raise (HTTPException 404 ("Widget with ID " +:+ pretty j +:+ " not found."))).
Proof.
  intros r x.
  refine (get_widget_endpoint_spec (17000000000001 # 10000) samples.noon samples.adder
            samples.fresh (fst r) x _ _).
  - vm_compute. reflexivity.
  - vm_compute. reflexivity.
Defined.

(** ** Schema and generation *)

(** What [get_data_db_schema] does, by the database file and sqlite's
    answer. *)
Lemma get_data_db_schema_eq
    (sqlite_execute : file_content → string → outcome (list (string * option string)))
    (w : world) :
  db.get_data_db_schema sqlite_execute w =
  (w, match fs w !! db.DATA_DB_FILE with
      | None =>
          Raise (ValueError ("Database file not found at '" +:+ db.DATA_DB_FILE
                             +:+ "'. Please provide the database."))
      | Some conn =>
          match sqlite_execute conn db.schema_query with
          | Raise e =>
              if isinstance e "sqlite3.Error"
              then Raise (ValueError ("Could not retrieve database schema: " +:+ exc_str e))
              else Raise e
          | Return rows =>
              match rows.*2 with
              | [] => Raise (ValueError ("No tables found in the database '"
                                         +:+ db.DATA_DB_FILE +:+ "'."))
              | parts => db.join_schema parts
              end
          end
      end).
Proof.
  unfold db.get_data_db_schema, bind at 1.
  destruct (fs w !! db.DATA_DB_FILE) as [conn|] eqn:Hfile.
  - rewrite (os_path_exists_Some _ _ _ Hfile). cbn [negb].
    unfold try_except, bind, open_read, lift. rewrite Hfile.
    destruct (sqlite_execute conn db.schema_query) as [rows|e].
    + destruct (rows.*2) as [|part parts]; [reflexivity|].
      unfold db.join_schema. by destruct (mapM _ _).
    + cbn [existsb]. rewrite orb_false_r. by destruct (isinstance e "sqlite3.Error").
  - by rewrite (os_path_exists_None _ _ Hfile).
Qed.

(** X13: [get_data_db_schema] never changes the store, and every failure
    it signals itself is a [ValueError]: for a missing database file, for
    any [sqlite3.Error] raised while reading it (whose message is kept),
    and for a database without tables.  With tables, all with their SQL,
    it returns their [CREATE] statements joined by a blank line. *)
Theorem schema_failures_are_value_errors
    (sqlite_execute : file_content → string → outcome (list (string * option string)))
    (w : world) :
  let result := snd (db.get_data_db_schema sqlite_execute w) in
  fst (db.get_data_db_schema sqlite_execute w) = w ∧
  (fs w !! db.DATA_DB_FILE = None →
   result = Raise (ValueError
     "Database file not found at 'database/widgets.db'. Please provide the database.")) ∧
  (∀ conn e, fs w !! db.DATA_DB_FILE = Some conn →
     sqlite_execute conn db.schema_query = Raise e → isinstance e "sqlite3.Error" = true →
     result = Raise (ValueError ("Could not retrieve database schema: " +:+ exc_str e))) ∧
  (∀ conn, fs w !! db.DATA_DB_FILE = Some conn →
     sqlite_execute conn db.schema_query = Return [] →
     result = Raise (ValueError "No tables found in the database 'database/widgets.db'.")) ∧
  (∀ conn rows, fs w !! db.DATA_DB_FILE = Some conn →
     sqlite_execute conn db.schema_query = Return rows → rows ≠ [] →
     ∀ parts, rows.*2 = Some <$> parts →
     result = Return (str_join (String "010"%char (String "010"%char "")) parts)).
Proof.
  cbv zeta. rewrite get_data_db_schema_eq. cbn [fst snd].
  split; [reflexivity|]. split; [by intros ->|].
  split; [by intros conn e -> -> ->|]. split; [by intros conn -> ->|].
  intros conn rows -> -> Hrows parts Hparts. rewrite Hparts.
  destruct parts as [|p parts]; [by destruct rows|].
  unfold db.join_schema. cbn [fmap list_fmap].
  change (Some p :: (Some <$> parts)) with (Some <$> (p :: parts)).
  assert (Hm : ∀ l : list string, mapM (λ part : option string, part) (Some <$> l) = Some l).
  { induction l as [|a l IH]; [reflexivity|]. cbn. by rewrite IH. }
  by rewrite Hm.
Qed.

Lemma schema_failures_are_value_errors_witness :
  snd (db.get_data_db_schema samples.sqlite_execute samples.with_database)
  = Return (str_join (String "010"%char (String "010"%char ""))
              ["CREATE TABLE members (member_id INTEGER PRIMARY KEY)";
               "CREATE TABLE sales (sale_id INTEGER PRIMARY KEY)"]) ∧
  snd (db.get_data_db_schema samples.sqlite_execute samples.fresh)
  = Raise (ValueError
      "Database file not found at 'database/widgets.db'. Please provide the database.") ∧
  snd (db.get_data_db_schema samples.sqlite_execute
         (set_fs <[db.DATA_DB_FILE := FText "SQLite format 3"]> samples.fresh))
  = Raise (ValueError "No tables found in the database 'database/widgets.db'.") ∧
  snd (db.get_data_db_schema samples.sqlite_execute
         (set_fs <[db.DATA_DB_FILE := FText "not a database"]> samples.fresh))
  = Raise (ValueError "Could not retrieve database schema: file is not a database").
Proof.
  split; [|split; [|split]].
  - refine (proj2 (proj2 (proj2 (proj2
      (schema_failures_are_value_errors samples.sqlite_execute samples.with_database))))
      (FText "SQLite format 3: members, sales") _ _ _ _ _ _).
    + vm_compute. reflexivity.
    + vm_compute. reflexivity.
    + discriminate.
    + reflexivity.
  - refine (proj1 (proj2
      (schema_failures_are_value_errors samples.sqlite_execute samples.fresh)) _).
    vm_compute. reflexivity.
  - refine (proj1 (proj2 (proj2 (proj2
      (schema_failures_are_value_errors samples.sqlite_execute
         (set_fs <[db.DATA_DB_FILE := FText "SQLite format 3"]> samples.fresh)))))
      (FText "SQLite format 3") _ _).
    + vm_compute. reflexivity.
    + vm_compute. reflexivity.
  - refine (proj1 (proj2 (proj2
      (schema_failures_are_value_errors samples.sqlite_execute
         (set_fs <[db.DATA_DB_FILE := FText "not a database"]> samples.fresh))))
      (FText "not a database")
      (PyExc ["DatabaseError"; "sqlite3.Error"; "Exception"; "BaseException"]
             "file is not a database") _ _ _).
    + vm_compute. reflexivity.
    + vm_compute. reflexivity.
    + vm_compute. reflexivity.
Defined.

Lemma all_in_object (keys : list string) (fields : list (string * json)) :
  ai_integration.all_in keys (JObj fields)
  = Return (forallb (λ key, bool_decide (is_Some (dict_get key fields))) keys).
Proof.
  induction keys as [|key keys IH]; [reflexivity|].
  cbn [ai_integration.all_in ai_integration.py_in forallb].
  destruct (bool_decide (is_Some (dict_get key fields))); [exact IH|reflexivity].
Qed.

(** What [get_widget_code_from_gemini] does once the key is set. *)
Lemma get_widget_code_from_gemini_eq
    (generate_content : string → string → outcome file_content)
    (key user_prompt schema : string) (w : world) :
  key ≠ "" →
  let wrap (e : exn) : outcome json :=
    if isinstance e "Exception"
    then Raise (ValueError ("Failed to generate widget from AI: " +:+ exc_str e))
    else Raise e in
  ai_integration.get_widget_code_from_gemini generate_content (Some key) user_prompt schema w =
  (w, match generate_content schema user_prompt with
      | Raise e => wrap e
      | Return response =>
          match json_loads response with
          | Raise e => wrap e
          | Return parsed_json =>
              match ai_integration.all_in ai_integration.required_keys parsed_json with
              | Raise e => wrap e
              | Return false => wrap (ValueError "AI response is missing required keys.")
              | Return true => Return parsed_json
              end
          end
      end).
Proof.
  intros Hkey wrap. subst wrap.
  unfold ai_integration.get_widget_code_from_gemini.
  destruct key as [|a key]; [done|].
  unfold try_except, bind, lift, raise, ret. cbn [existsb].
  destruct (generate_content schema user_prompt) as [response|e].
  - destruct (json_loads response) as [parsed_json|e].
    + destruct (ai_integration.all_in _ parsed_json) as [[]|e]; cbn [negb].
      * reflexivity.
      * reflexivity.
      * rewrite orb_false_r. by destruct (isinstance e "Exception").
    + rewrite orb_false_r. by destruct (isinstance e "Exception").
  - rewrite orb_false_r. by destruct (isinstance e "Exception").
Qed.

(** X14: [get_widget_code_from_gemini] never changes the store.  Without
    an API key (unset or empty) it raises [ValueError] without calling
    the model.  What it returns is the decoded answer of the model, and it
    has passed the key check: when it is an object, it has all four of
    [name], [category], [python_code], [html_code].  Whatever it raises is
    a [ValueError], unless the failure was not an [Exception] at all. *)
Theorem generated_code_is_checked
    (generate_content : string → string → outcome file_content)
    (api_key : option string) (user_prompt schema : string) (w : world) :
  let r := ai_integration.get_widget_code_from_gemini generate_content api_key
             user_prompt schema w in
  fst r = w ∧
  (api_key = None ∨ api_key = Some "" →
   snd r = Raise (ValueError "GEMINI_API_KEY environment variable not set.")) ∧
  (∀ parsed_json, snd r = Return parsed_json →
     generate_content schema user_prompt = Return (FJson parsed_json) ∧
     ∀ fields, parsed_json = JObj fields →
       ∀ key, key ∈ ai_integration.required_keys → is_Some (dict_get key fields)) ∧
  (∀ e, snd r = Raise e → isinstance e "ValueError" = true ∨ isinstance e "Exception" = false).
Proof.
  cbv zeta.
  destruct api_key as [key|]; [destruct (decide (key = "")) as [->|Hkey]|].
  2:{ rewrite (get_widget_code_from_gemini_eq generate_content key user_prompt schema w Hkey).
      cbn [fst snd]. split; [reflexivity|]. split; [intros [[=]|[=]]; done|].
      assert (Hwrap : ∀ e0 e : exn,
        (if isinstance e0 "Exception"
         then Raise (ValueError ("Failed to generate widget from AI: " +:+ exc_str e0))
         else Raise e0) = @Raise json e →
        isinstance e "ValueError" = true ∨ isinstance e "Exception" = false).
      { intros e0 e. destruct (isinstance e0 "Exception") eqn:He0; intros [= <-]; auto. }
      destruct (generate_content schema user_prompt) as [response|e0].
      - destruct response as [text|doc]; cbn [json_loads].
        + split; [by destruct (isinstance _ _)|]. apply Hwrap.
        + destruct (ai_integration.all_in ai_integration.required_keys doc) as [[]|e0] eqn:Hall.
          * split; [|by intros e [=]]. intros j [= <-]. split; [reflexivity|].
            intros fields -> name Hname. rewrite all_in_object in Hall.
            assert (Hkeys : forallb (λ key, bool_decide (is_Some (dict_get key fields)))
                              ai_integration.required_keys = true) by congruence.
            rewrite forallb_forall in Hkeys.
            apply list_elem_of_In, Hkeys, bool_decide_eq_true in Hname. exact Hname.
          * split; [by intros j [=]|]. intros e [= <-]. by left.
          * split; [by destruct (isinstance _ _)|]. apply Hwrap.
      - split; [by destruct (isinstance _ _)|]. apply Hwrap. }
  all: cbn; split; [reflexivity|]; split; [reflexivity|];
    split; [by intros ? [=]|]; intros e [= <-]; by left.
Qed.

Lemma generated_code_is_checked_witness :
  let schema := "CREATE TABLE members (member_id INTEGER PRIMARY KEY)" in
  let answer := JObj [("name", JStr "Adder"); ("category", JStr "numerical");
                      ("python_code", JStr samples.int_sum_code);
                      ("html_code", JStr "<form></form>");
                      ("notes", JStr schema)] in
  let failure := ValueError ("Failed to generate widget from AI: "
                             +:+ "Expecting value: line 1 column 1 (char 0)") in
  (samples.generate_content schema "add two numbers" = Return (FJson answer) ∧
   ∀ fields, answer = JObj fields →
     ∀ key, key ∈ ai_integration.required_keys → is_Some (dict_get key fields)) ∧
  (isinstance failure "ValueError" = true ∨ isinstance failure "Exception" = false) ∧
  snd (ai_integration.get_widget_code_from_gemini samples.generate_content (Some "")
         "add two numbers" schema samples.fresh)
  = Raise (ValueError "GEMINI_API_KEY environment variable not set.").
Proof.
  intros schema answer failure. split; [|split].
  - refine (proj1 (proj2 (proj2 (generated_code_is_checked samples.generate_content
      (Some "secret") "add two numbers" schema samples.fresh))) answer _).
    vm_compute. reflexivity.
  - refine (proj2 (proj2 (proj2 (generated_code_is_checked samples.generate_content
      (Some "secret") "say sorry" schema samples.fresh))) failure _).
    vm_compute. reflexivity.
  - refine (proj1 (proj2 (generated_code_is_checked samples.generate_content
      (Some "") "add two numbers" schema samples.fresh)) _).
    right. reflexivity.
Defined.

Lemma get_widget_code_from_gemini_world
    (generate_content : string → string → outcome file_content)
    (api_key : option string) (user_prompt schema : string) (w : world) :
  fst (ai_integration.get_widget_code_from_gemini generate_content api_key user_prompt schema w)
  = w.
Proof.
  destruct api_key as [key|]; [destruct (decide (key = "")) as [->|Hkey]|].
  - reflexivity.
  - by rewrite (get_widget_code_from_gemini_eq generate_content key user_prompt schema w Hkey).
  - reflexivity.
Qed.

(** What [generate_widget_endpoint] does, step by step: the first step
    that fails decides the error, and only the last step writes. *)
Lemma generate_widget_endpoint_eq
    (sqlite_execute : file_content → string → outcome (list (string * option string)))
    (generate_content : string → string → outcome file_content)
    (api_key : option string) (t : Q) (now : datetime.t) (request : models.PromptRequest)
    (w : world) :
  let classify (e : exn) : outcome models.Widget :=
    if isinstance e "ValueError" then Raise (HTTPException 400 (exc_str e))
    else if isinstance e "Exception"
    then Raise (HTTPException 500 ("An unexpected internal error occurred: " +:+ exc_str e))
    else Raise e in
  let path := db.widget_path (db.timestamp_ms t) in
  main.generate_widget_endpoint sqlite_execute generate_content api_key t now request w =
  match snd (db.get_data_db_schema sqlite_execute w) with
  | Raise e => (w, classify e)
  | Return schema =>
      match snd (ai_integration.get_widget_code_from_gemini generate_content api_key
                   (models.prompt request) schema w) with
      | Raise e => (w, classify e)
      | Return ai_output =>
          match models.WidgetCreate_init ai_output with
          | Raise e => (w, classify e)
          | Return widget_data =>
              let x := models.mkWidget widget_data (db.timestamp_ms t) now 0 in
              if bool_decide (is_Some (fs w !! path)) || bool_decide (db.WIDGETS_DIR ∈ dirs w)
              then (set_fs <[path := FJson (models.model_dump x)]> w, Return x)
              else (w, classify (FileNotFoundError path))
          end
      end
  end.
Proof.
  intros classify path.
  assert (Hhandle : ∀ (e : exn) (w0 : world),
    match first_handler (S:=world) (A:=models.Widget) e
            [(["ValueError"], λ e, raise (HTTPException 400 (exc_str e)));
             (["Exception"],
              λ e, raise (HTTPException 500
                            ("An unexpected internal error occurred: " +:+ exc_str e)))] with
    | Some handler => handler w0
    | None => (w0, Raise e)
    end = (w0, classify e)).
  { intros e w0. subst classify. cbn [first_handler existsb]. rewrite !orb_false_r.
    destruct (isinstance e "ValueError"); [reflexivity|].
    by destruct (isinstance e "Exception"). }
  unfold main.generate_widget_endpoint, try_excepts, bind at 1.
  assert (Hschema : fst (db.get_data_db_schema sqlite_execute w) = w)
    by (by rewrite get_data_db_schema_eq).
  destruct (db.get_data_db_schema sqlite_execute w) as [w0 [schema|e]];
    cbn [fst snd] in Hschema |- *; subst w0; [|apply Hhandle].
  unfold bind at 1.
  pose proof (get_widget_code_from_gemini_world generate_content api_key
                (models.prompt request) schema w) as Hworld.
  destruct (ai_integration.get_widget_code_from_gemini generate_content api_key
              (models.prompt request) schema w) as [w1 [ai_output|e]];
    cbn [fst snd] in Hworld |- *; subst w1; [|apply Hhandle].
  unfold bind at 1, lift.
  destruct (models.WidgetCreate_init ai_output) as [widget_data|e]; [|apply Hhandle].
  unfold bind, ret. rewrite create_widget_eq. cbv zeta. fold path.
  destruct (_ || _); [reflexivity|apply Hhandle].
Qed.

(** The outcome of [generate_widget_endpoint] once the schema was read and
    the key is set, by the answer of the model. *)
Lemma generate_widget_endpoint_answer
    (sqlite_execute : file_content → string → outcome (list (string * option string)))
    (generate_content : string → string → outcome file_content)
    (key : string) (t : Q) (now : datetime.t) (request : models.PromptRequest)
    (w : world) (schema : string) (answer : json) :
  snd (db.get_data_db_schema sqlite_execute w) = Return schema →
  key ≠ "" →
  generate_content schema (models.prompt request) = Return (FJson answer) →
  ai_integration.all_in ai_integration.required_keys answer = Return true →
  let path := db.widget_path (db.timestamp_ms t) in
  main.generate_widget_endpoint sqlite_execute generate_content (Some key) t now request w =
  match models.WidgetCreate_init answer with
  | Raise e =>
      (w, if isinstance e "ValueError" then Raise (HTTPException 400 (exc_str e))
          else if isinstance e "Exception"
          then Raise (HTTPException 500
                        ("An unexpected internal error occurred: " +:+ exc_str e))
          else Raise e)
  | Return widget_data =>
      let x := models.mkWidget widget_data (db.timestamp_ms t) now 0 in
      if bool_decide (is_Some (fs w !! path)) || bool_decide (db.WIDGETS_DIR ∈ dirs w)
      then (set_fs <[path := FJson (models.model_dump x)]> w, Return x)
      else (w, Raise (HTTPException 500
                        ("An unexpected internal error occurred: "
                         +:+ exc_str (FileNotFoundError path))))
  end.
Proof.
  intros Hschema Hkey Hanswer Hall path.
  pose proof (generate_widget_endpoint_eq sqlite_execute generate_content (Some key)
                t now request w) as Heq.
  cbv beta zeta in Heq. rewrite Heq. clear Heq. rewrite Hschema.
  rewrite (get_widget_code_from_gemini_eq generate_content key (models.prompt request)
             schema w Hkey).
  cbn [snd]. rewrite Hanswer. cbn [json_loads]. rewrite Hall. reflexivity.
Qed.

Lemma validate_create_keys (fields : list (string * json)) (n c p h : string) :
  dict_get "name" fields = Some (JStr n) →
  dict_get "category" fields = Some (JStr c) →
  dict_get "python_code" fields = Some (JStr p) →
  dict_get "html_code" fields = Some (JStr h) →
  ai_integration.all_in ai_integration.required_keys (JObj fields) = Return true ∧
  models.WidgetCreate_init (JObj fields) = Return (models.mkWidgetCreate n c p h).
Proof.
  intros Hn Hc Hp Hh. split.
  - rewrite all_in_object. unfold ai_integration.required_keys. cbn [forallb].
    rewrite Hn, Hc, Hp, Hh.
    by rewrite !(bool_decide_eq_true_2 (is_Some (Some _))) by (by eexists).
  - unfold models.WidgetCreate_init, models.validate_create, models.str_field.
    by rewrite Hn, Hc, Hp, Hh.
Qed.

(** X15: a generation request that fails persists nothing: the store is
    exactly as before.  The error that reaches the caller is an HTTP error
    with status 400 or 500, unless the failure was not an [Exception] at
    all (such as [SystemExit]), which passes through. *)
Theorem generation_failure_writes_nothing
    (sqlite_execute : file_content → string → outcome (list (string * option string)))
    (generate_content : string → string → outcome file_content)
    (api_key : option string) (t : Q) (now : datetime.t) (request : models.PromptRequest)
    (w : world) (e : exn) :
  snd (main.generate_widget_endpoint sqlite_execute generate_content api_key t now request w)
  = Raise e →
  fst (main.generate_widget_endpoint sqlite_execute generate_content api_key t now request w)
  = w ∧
  ((∃ detail, e = HTTPException 400 detail) ∨ (∃ detail, e = HTTPException 500 detail)
   ∨ isinstance e "Exception" = false).
Proof.
  pose proof (generate_widget_endpoint_eq sqlite_execute generate_content api_key
                t now request w) as Heq.
  cbv beta zeta in Heq. rewrite Heq. clear Heq.
  assert (Hclassify : ∀ e0 : exn,
    (if isinstance e0 "ValueError" then Raise (HTTPException 400 (exc_str e0))
     else if isinstance e0 "Exception"
     then Raise (HTTPException 500 ("An unexpected internal error occurred: " +:+ exc_str e0))
     else Raise e0) = @Raise models.Widget e →
    (∃ detail, e = HTTPException 400 detail) ∨ (∃ detail, e = HTTPException 500 detail)
    ∨ isinstance e "Exception" = false).
  { intros e0. destruct (isinstance e0 "ValueError"); [intros [= <-]; eauto|].
    destruct (isinstance e0 "Exception") eqn:He0; intros [= <-]; eauto. }
  destruct (snd (db.get_data_db_schema sqlite_execute w)) as [schema|e0];
    [|cbn [fst snd]; intros H; split; [reflexivity|exact (Hclassify _ H)]].
  destruct (snd (ai_integration.get_widget_code_from_gemini generate_content api_key
                   (models.prompt request) schema w)) as [ai_output|e0];
    [|cbn [fst snd]; intros H; split; [reflexivity|exact (Hclassify _ H)]].
  destruct (models.WidgetCreate_init ai_output) as [widget_data|e0];
    [|cbn [fst snd]; intros H; split; [reflexivity|exact (Hclassify _ H)]].
  destruct (_ || _); cbn [fst snd]; [discriminate|].
  intros H; split; [reflexivity|].
  exact (Hclassify (FileNotFoundError (db.widget_path (db.timestamp_ms t))) H).
Qed.

Lemma generation_failure_writes_nothing_witness :
  let w := set_dirs (λ _, {["database"]}) samples.with_database in
  let e := HTTPException 500
             ("An unexpected internal error occurred: "
              +:+ "[Errno 2] No such file or directory: 'widgets/1700000000250.json'") in
  let run := main.generate_widget_endpoint samples.sqlite_execute samples.generate_content
               (Some "secret") (6800000001 # 4) samples.noon
               (models.mkPromptRequest "add two numbers") w in
  snd run = Raise e ∧
  fst run = w ∧
  ((∃ detail, e = HTTPException 400 detail) ∨ (∃ detail, e = HTTPException 500 detail)
   ∨ isinstance e "Exception" = false).
Proof.
  intros w e run.
  assert (Hrun : snd run = Raise e) by (vm_compute; reflexivity).
  split; [exact Hrun|].
  exact (generation_failure_writes_nothing samples.sqlite_execute samples.generate_content
           (Some "secret") (6800000001 # 4) samples.noon
           (models.mkPromptRequest "add two numbers") w e Hrun).
Defined.

(** X16: with the database schema readable, the API key set, the storage
    directory in place and an answer of the model that is an object whose
    [name], [category], [python_code] and [html_code] are text,
    [generate_widget_endpoint] returns the widget made of these four
    texts, with the id taken from the clock, the creation date [now] and
    a usage count of 0; it writes that widget's record and nothing else,
    and [get_widget_endpoint] of the new id then returns the same
    widget. *)
Theorem generation_stores_the_widget
    (sqlite_execute : file_content → string → outcome (list (string * option string)))
    (generate_content : string → string → outcome file_content)
    (key : string) (t : Q) (now : datetime.t) (request : models.PromptRequest)
    (w : world) (schema : string) (fields : list (string * json)) (n c p h : string) :
  snd (db.get_data_db_schema sqlite_execute w) = Return schema →
  key ≠ "" →
  generate_content schema (models.prompt request) = Return (FJson (JObj fields)) →
  dict_get "name" fields = Some (JStr n) →
  dict_get "category" fields = Some (JStr c) →
  dict_get "python_code" fields = Some (JStr p) →
  dict_get "html_code" fields = Some (JStr h) →
  db.WIDGETS_DIR ∈ dirs w →
  datetime.valid now = true →
  let x := models.mkWidget (models.mkWidgetCreate n c p h) (db.timestamp_ms t) now 0 in
  let w' := set_fs <[db.widget_path (db.timestamp_ms t) := FJson (models.model_dump x)]> w in
  main.generate_widget_endpoint sqlite_execute generate_content (Some key) t now request w
  = (w', Return x) ∧
  main.get_widget_endpoint (db.timestamp_ms t) w' = (w', Return x).
Proof.
  intros Hschema Hkey Hanswer Hn Hc Hp Hh Hdir Hvalid x w'.
  destruct (validate_create_keys fields n c p h Hn Hc Hp Hh) as [Hall Hinit].
  split.
  - pose proof (generate_widget_endpoint_answer sqlite_execute generate_content key t now
                  request w schema (JObj fields) Hschema Hkey Hanswer Hall) as Heq.
    cbv beta zeta in Heq. rewrite Heq, Hinit.
    rewrite (bool_decide_eq_true_2 (db.WIDGETS_DIR ∈ dirs w)) by done.
    by rewrite orb_true_r.
  - unfold main.get_widget_endpoint, bind. subst w'.
    by rewrite (get_after_write (db.timestamp_ms t) x w Hvalid).
Qed.

Lemma generation_stores_the_widget_witness :
  let x := models.mkWidget
             (models.mkWidgetCreate "Adder" "numerical" samples.int_sum_code "<form></form>")
             (db.timestamp_ms (17000000000001 # 10000)) samples.noon 0 in
  let w' := set_fs <[db.widget_path (db.timestamp_ms (17000000000001 # 10000))
                     := FJson (models.model_dump x)]> samples.with_database in
  main.generate_widget_endpoint samples.sqlite_execute samples.generate_content
    (Some "secret") (17000000000001 # 10000) samples.noon
    (models.mkPromptRequest "add two numbers") samples.with_database
  = (w', Return x) ∧
  main.get_widget_endpoint (db.timestamp_ms (17000000000001 # 10000)) w' = (w', Return x).
Proof.
  refine (generation_stores_the_widget samples.sqlite_execute samples.generate_content
    "secret" (17000000000001 # 10000) samples.noon
    (models.mkPromptRequest "add two numbers") samples.with_database
    (str_join (String "010"%char (String "010"%char ""))
       ["CREATE TABLE members (member_id INTEGER PRIMARY KEY)";
        "CREATE TABLE sales (sale_id INTEGER PRIMARY KEY)"])
    [("name", JStr "Adder"); ("category", JStr "numerical");
     ("python_code", JStr samples.int_sum_code); ("html_code", JStr "<form></form>");
     ("notes", JStr (str_join (String "010"%char (String "010"%char ""))
       ["CREATE TABLE members (member_id INTEGER PRIMARY KEY)";
        "CREATE TABLE sales (sale_id INTEGER PRIMARY KEY)"]))]
    "Adder" "numerical" samples.int_sum_code "<form></form>" _ _ _ _ _ _ _ _ _).
  - vm_compute. reflexivity.
  - discriminate.
  - vm_compute. reflexivity.
  - vm_compute. reflexivity.
  - vm_compute. reflexivity.
  - vm_compute. reflexivity.
  - vm_compute. reflexivity.
  - apply (bool_decide_unpack _). vm_compute. exact I.
  - vm_compute. reflexivity.
Defined.

(** X17: failures upstream of the store are all reported with status 400
    and leave the store alone: a missing database file; a missing or empty
    API key; a failed call of the model, whose message is kept behind
    [Failed to generate widget from AI: ]; an answer that is not JSON; and
    an object that lacks one of the four keys, whose own [ValueError] is
    caught and wrapped a second time. *)
Theorem generation_upstream_failures_are_400
    (sqlite_execute : file_content → string → outcome (list (string * option string)))
    (generate_content : string → string → outcome file_content)
    (api_key : option string) (t : Q) (now : datetime.t) (request : models.PromptRequest)
    (w : world) :
  let result :=
    main.generate_widget_endpoint sqlite_execute generate_content api_key t now request w in
  (fs w !! db.DATA_DB_FILE = None →
   result = (w, Raise (HTTPException 400
     "Database file not found at 'database/widgets.db'. Please provide the database."))) ∧
  (∀ schema, snd (db.get_data_db_schema sqlite_execute w) = Return schema →
     api_key = None ∨ api_key = Some "" →
     result = (w, Raise (HTTPException 400 "GEMINI_API_KEY environment variable not set."))) ∧
  (∀ schema key e, snd (db.get_data_db_schema sqlite_execute w) = Return schema →
     api_key = Some key → key ≠ "" →
     generate_content schema (models.prompt request) = Raise e →
     isinstance e "Exception" = true →
     result = (w, Raise (HTTPException 400
                           ("Failed to generate widget from AI: " +:+ exc_str e)))) ∧
  (∀ schema key text, snd (db.get_data_db_schema sqlite_execute w) = Return schema →
     api_key = Some key → key ≠ "" →
     generate_content schema (models.prompt request) = Return (FText text) →
     ∃ detail,
       result = (w, Raise (HTTPException 400
                             ("Failed to generate widget from AI: " +:+ detail)))) ∧
  (∀ schema key fields name, snd (db.get_data_db_schema sqlite_execute w) = Return schema →
     api_key = Some key → key ≠ "" →
     generate_content schema (models.prompt request) = Return (FJson (JObj fields)) →
     name ∈ ai_integration.required_keys → dict_get name fields = None →
     result = (w, Raise (HTTPException 400
       "Failed to generate widget from AI: AI response is missing required keys."))).
Proof.
  cbv zeta.
  pose proof (generate_widget_endpoint_eq sqlite_execute generate_content api_key
                t now request w) as Heq.
  cbv beta zeta in Heq. rewrite Heq. clear Heq.
  split; [|split; [|split; [|split]]].
  - intros Hfile. rewrite get_data_db_schema_eq. cbn [snd]. by rewrite Hfile.
  - intros schema -> [->| ->]; reflexivity.
  - intros schema key e -> -> Hkey Hcall He.
    rewrite (get_widget_code_from_gemini_eq generate_content key (models.prompt request)
               schema w Hkey).
    cbn [snd]. by rewrite Hcall, He.
  - intros schema key text -> -> Hkey Hcall.
    rewrite (get_widget_code_from_gemini_eq generate_content key (models.prompt request)
               schema w Hkey).
    cbn [snd]. rewrite Hcall. cbn [json_loads]. by eexists.
  - intros schema key fields name -> -> Hkey Hcall Hname Hmissing.
    rewrite (get_widget_code_from_gemini_eq generate_content key (models.prompt request)
               schema w Hkey).
    cbn [snd]. rewrite Hcall. cbn [json_loads]. rewrite all_in_object.
    destruct (forallb _ ai_integration.required_keys) eqn:Hall; [|reflexivity].
    rewrite forallb_forall in Hall.
    apply list_elem_of_In, Hall, bool_decide_eq_true in Hname.
    rewrite Hmissing in Hname. by destruct Hname.
Qed.

Lemma generation_upstream_failures_are_400_witness :
  main.generate_widget_endpoint samples.sqlite_execute samples.generate_content
    (Some "secret") (17000000000001 # 10000) samples.noon
    (models.mkPromptRequest "draw a chart") samples.with_database
  = (samples.with_database,
     Raise (HTTPException 400
              ("Failed to generate widget from AI: "
               +:+ exc_str (Exception_ "ResourceExhausted" "429 quota exceeded")))).
Proof.
  refine (proj1 (proj2 (proj2
    (generation_upstream_failures_are_400 samples.sqlite_execute samples.generate_content
       (Some "secret") (17000000000001 # 10000) samples.noon
       (models.mkPromptRequest "draw a chart") samples.with_database)))
    (str_join (String "010"%char (String "010"%char ""))
       ["CREATE TABLE members (member_id INTEGER PRIMARY KEY)";
        "CREATE TABLE sales (sale_id INTEGER PRIMARY KEY)"])
    "secret" (Exception_ "ResourceExhausted" "429 quota exceeded") _ _ _ _ _).
  - vm_compute. reflexivity.
  - reflexivity.
  - discriminate.
  - vm_compute. reflexivity.
  - vm_compute. reflexivity.
Defined.

(** X18: two failures are reported with status 500.  The key check
    accepts answers that are not objects (a list that contains the four
    names, a text in which they occur), and unpacking such an answer into
    [WidgetCreate] raises [TypeError].  And when the storage directory is
    missing, a complete answer fails at the write, with the
    [FileNotFoundError] message in the detail.  Neither writes anything. *)
Theorem generation_internal_failures_are_500
    (sqlite_execute : file_content → string → outcome (list (string * option string)))
    (generate_content : string → string → outcome file_content)
    (key : string) (t : Q) (now : datetime.t) (request : models.PromptRequest)
    (w : world) (schema : string) :
  snd (db.get_data_db_schema sqlite_execute w) = Return schema →
  key ≠ "" →
  let result :=
    main.generate_widget_endpoint sqlite_execute generate_content (Some key) t now request w in
  (∀ l, generate_content schema (models.prompt request) = Return (FJson (JList l)) →
     ai_integration.all_in ai_integration.required_keys (JList l) = Return true →
     ∃ detail,
       result = (w, Raise (HTTPException 500
                             ("An unexpected internal error occurred: " +:+ detail)))) ∧
  (∀ s, generate_content schema (models.prompt request) = Return (FJson (JStr s)) →
     ai_integration.all_in ai_integration.required_keys (JStr s) = Return true →
     ∃ detail,
       result = (w, Raise (HTTPException 500
                             ("An unexpected internal error occurred: " +:+ detail)))) ∧
  (∀ fields n c p h,
     generate_content schema (models.prompt request) = Return (FJson (JObj fields)) →
     dict_get "name" fields = Some (JStr n) →
     dict_get "category" fields = Some (JStr c) →
     dict_get "python_code" fields = Some (JStr p) →
     dict_get "html_code" fields = Some (JStr h) →
     db.WIDGETS_DIR ∉ dirs w →
     fs w !! db.widget_path (db.timestamp_ms t) = None →
     result = (w, Raise (HTTPException 500
       ("An unexpected internal error occurred: [Errno 2] No such file or directory: '"
        +:+ db.widget_path (db.timestamp_ms t) +:+ "'")))).
Proof.
  intros Hschema Hkey result. subst result. split; [|split].
  - intros l Hanswer Hall.
    pose proof (generate_widget_endpoint_answer sqlite_execute generate_content key t now
                  request w schema (JList l) Hschema Hkey Hanswer Hall) as Heq.
    cbv beta zeta in Heq. rewrite Heq. by eexists.
  - intros s Hanswer Hall.
    pose proof (generate_widget_endpoint_answer sqlite_execute generate_content key t now
                  request w schema (JStr s) Hschema Hkey Hanswer Hall) as Heq.
    cbv beta zeta in Heq. rewrite Heq. by eexists.
  - intros fields n c p h Hanswer Hn Hc Hp Hh Hdir Hfile.
    destruct (validate_create_keys fields n c p h Hn Hc Hp Hh) as [Hall Hinit].
    pose proof (generate_widget_endpoint_answer sqlite_execute generate_content key t now
                  request w schema (JObj fields) Hschema Hkey Hanswer Hall) as Heq.
    cbv beta zeta in Heq. rewrite Heq, Hinit, Hfile.
    rewrite (bool_decide_eq_false_2 (db.WIDGETS_DIR ∈ dirs w)) by done.
    rewrite (bool_decide_eq_false_2 (is_Some None)) by (by intros [? [=]]).
    reflexivity.
Qed.

Lemma generation_internal_failures_are_500_witness :
  ∃ detail,
    main.generate_widget_endpoint samples.sqlite_execute samples.generate_content
      (Some "secret") (17000000000001 # 10000) samples.noon
      (models.mkPromptRequest "list the keys") samples.with_database
    = (samples.with_database,
       Raise (HTTPException 500 ("An unexpected internal error occurred: " +:+ detail))).
Proof.
  refine (proj1
    (generation_internal_failures_are_500 samples.sqlite_execute samples.generate_content
       "secret" (17000000000001 # 10000) samples.noon
       (models.mkPromptRequest "list the keys") samples.with_database
       (str_join (String "010"%char (String "010"%char ""))
          ["CREATE TABLE members (member_id INTEGER PRIMARY KEY)";
           "CREATE TABLE sales (sale_id INTEGER PRIMARY KEY)"]) _ _)
    [JStr "name"; JStr "category"; JStr "python_code"; JStr "html_code"] _ _).
  - vm_compute. reflexivity.
  - discriminate.
  - vm_compute. reflexivity.
  - vm_compute. reflexivity.
Defined.
